(** * autocosmic_backend: the payment-gateway client cache and the order flow

    A shallow embedding of
      - [src/services/razorpay.service.ts]   ([getRazorpayInstance]) and
      - [src/controllers/order.controller.ts] ([createRazorpayOrder],
        [placeOrder]),
    followed by the properties of the order/payment core.

    Request payloads are JSON values with JavaScript's rules for property
    access, truthiness, [||], [===] and template literals.  JavaScript
    numbers are IEEE 754 binary64 values ([spec_float] at precision 53).
    The two module-level variables of the service, the database tables the
    handlers touch and a journal of the I/O they perform make up the
    [Store]; everything the outside world decides (clock readings,
    database and processor failures, generated ids) is read from an [Env]. *)

From Stdlib Require Import ZArith List String Ascii Bool Lia QArith Qabs.
From Stdlib Require Import Floats.SpecFloat.
From Stdlib Require Import DecimalString.
Import ListNotations.
Set Warnings "-register-all".
Local Open Scope string_scope.
Local Open Scope Z_scope.

(* ===================================================================== *)
(** ** JavaScript values *)
(* ===================================================================== *)

Module Js.

(** A JavaScript number: a binary64 floating-point datum. *)
Definition number : Type := spec_float.

Definition prec : Z := 53.
Definition emax : Z := 1024.

(** The normalised datum [+/- p * 2^0]: the mantissa is shifted up to 53
    bits and the exponent lowered by as much. *)
Definition normalized (sign : bool) (p : positive) : number :=
  let k := prec - Zpos (Pos.size p) in
  S754_finite sign (Z.to_pos (Zpos p * 2 ^ k)) (- k).

(** The number an integer denotes: itself below 2^53 in magnitude, the
    nearest binary64 value beyond. *)
Definition num_of_Z (z : Z) : number :=
  if Z.abs z <? 2 ^ prec then
    match z with
    | Z0 => S754_zero false
    | Zpos p => normalized false p
    | Zneg p => normalized true p
    end
  else binary_normalize prec emax z 0 false.

(** [x * y] on numbers: the binary64 product, rounded to nearest even. *)
Definition num_mul (x y : number) : number := SFmul prec emax x y.

(** A value as [JSON.parse] produces it.  An object is the list of its own
    properties; a property read takes the first binding of the key. *)
Inductive JsVal : Type :=
| JUndefined
| JNull
| JBool (b : bool)
| JNum (x : number)
| JStr (s : string)
| JArr (elems : list JsVal)
| JObj (props : list (string * JsVal)).

(** A thrown value: a JavaScript [Error] raised by the runtime or by the
    database client, or the rejection object of the payment processor's SDK
    ([{ statusCode, error: { description } }]). *)
Inductive Exn : Type :=
| TypeError (msg : string)
| PrismaError (msg : string)
| ApiError (statusCode : option Z) (description : option string).

Inductive Result (A : Type) : Type :=
| Ok (a : A)
| Throw (e : Exn).
Arguments Ok {A} a.
Arguments Throw {A} e.

Definition rbind {A B} (r : Result A) (k : A -> Result B) : Result B :=
  match r with
  | Ok a => k a
  | Throw e => Throw e
  end.

(** ToBoolean. *)
Definition truthy (v : JsVal) : bool :=
  match v with
  | JUndefined | JNull => false
  | JBool b => b
  | JNum (S754_zero _) | JNum S754_nan => false
  | JNum _ => true
  | JStr s => negb (String.eqb s EmptyString)
  | JArr _ | JObj _ => true
  end.

Fixpoint lookup (k : string) (props : list (string * JsVal)) : JsVal :=
  match props with
  | [] => JUndefined
  | (k', v) :: rest => if String.eqb k k' then v else lookup k rest
  end.

(** [v.k] for the property names the handlers read ([order], [items],
    [id], [email], [city], ...): none of them is defined on the prototype of
    a string, number, boolean or array, so such a read yields [undefined];
    reading a property of [undefined] or [null] throws. *)
Definition get (v : JsVal) (k : string) : Result JsVal :=
  match v with
  | JUndefined => Throw (TypeError "Cannot read properties of undefined")
  | JNull => Throw (TypeError "Cannot read properties of null")
  | JObj props => Ok (lookup k props)
  | _ => Ok JUndefined
  end.

(** [v?.k] *)
Definition opt_get (v : JsVal) (k : string) : JsVal :=
  match v with
  | JUndefined | JNull => JUndefined
  | JObj props => lookup k props
  | _ => JUndefined
  end.

(** [v[0]]: the first element of an array, the first character of a
    string, the property named 0 of an object. *)
Definition get_first (v : JsVal) : Result JsVal :=
  match v with
  | JUndefined => Throw (TypeError "Cannot read properties of undefined")
  | JNull => Throw (TypeError "Cannot read properties of null")
  | JArr elems => Ok (nth 0 elems JUndefined)
  | JObj props => Ok (lookup "0" props)
  | JStr (String c _) => Ok (JStr (String c EmptyString))
  | _ => Ok JUndefined
  end.

(** [a || b] *)
Definition or_else (a b : JsVal) : JsVal := if truthy a then a else b.

(** [v === 's'] for a string literal. *)
Definition strict_eq_str (v : JsVal) (s : string) : bool :=
  match v with
  | JStr s' => String.eqb s' s
  | _ => false
  end.

Fixpoint map_result {A B} (f : A -> Result B) (l : list A) : Result (list B) :=
  match l with
  | [] => Ok []
  | a :: rest =>
      rbind (f a) (fun b => rbind (map_result f rest) (fun bs => Ok (b :: bs)))
  end.

(** [v.map(f)]: only an array has a callable [map]. *)
Definition array_map {B} (v : JsVal) (f : JsVal -> Result B) : Result (list B) :=
  match v with
  | JUndefined => Throw (TypeError "Cannot read properties of undefined")
  | JNull => Throw (TypeError "Cannot read properties of null")
  | JArr elems => map_result f elems
  | _ => Throw (TypeError "map is not a function")
  end.

(** Decimal digits of an integer, as a template literal prints it. *)
Definition string_of_Z (z : Z) : string := NilZero.string_of_int (Z.to_int z).

Fixpoint join (sep : string) (l : list string) : string :=
  match l with
  | [] => EmptyString
  | [s] => s
  | s :: rest => s ++ sep ++ join sep rest
  end.

Section Conversions.
(** Number-to-string and string-to-number conversion of the runtime. *)
Variable number_to_string : number -> string.
Variable string_to_number : string -> number.

(** ToString, as a template literal applies it. *)
Fixpoint to_string (v : JsVal) : string :=
  match v with
  | JUndefined => "undefined"
  | JNull => "null"
  | JBool true => "true"
  | JBool false => "false"
  | JNum x => number_to_string x
  | JStr s => s
  | JArr elems =>
      join ","
        (map (fun e => match e with
                       | JUndefined | JNull => EmptyString
                       | _ => to_string e
                       end) elems)
  | JObj _ => "[object Object]"
  end.

(** ToNumber, as [*] applies it to its operands. *)
Definition to_number (v : JsVal) : number :=
  match v with
  | JUndefined => S754_nan
  | JNull => S754_zero false
  | JBool true => num_of_Z 1
  | JBool false => S754_zero false
  | JNum x => x
  | JStr s => string_to_number s
  | JArr _ | JObj _ => string_to_number (to_string v)
  end.
End Conversions.

(** The integer nearest to [sm / 2^k], ties towards plus infinity. *)
Definition round_half_up (sm : Z) (k : Z) : Z :=
  (2 * sm + 2 ^ k) / 2 ^ (k + 1).

(** [Math.round]: a number that is not finite or already integral is
    returned as it is; otherwise the nearest integer, ties towards plus
    infinity, with the sign of the argument kept on a zero result. *)
Definition Math_round (x : number) : number :=
  match x with
  | S754_finite s m e =>
      if 0 <=? e then x
      else
        let n := round_half_up (cond_Zopp s (Zpos m)) (- e) in
        if n =? 0 then S754_zero s else num_of_Z n
  | _ => x
  end.

(** The rational a finite number stands for (0 for the others). *)
Definition to_Q (x : number) : Q :=
  match x with
  | S754_finite s m e =>
      if 0 <=? e then inject_Z (cond_Zopp s (Zpos m) * 2 ^ e)
      else Qmake (cond_Zopp s (Zpos m)) (Z.to_pos (2 ^ (- e)))
  | _ => 0%Q
  end.


(** [s.includes(sub)] *)
Fixpoint includes (sub s : string) : bool :=
  String.prefix sub s
  || match s with
     | EmptyString => false
     | String _ rest => includes sub rest
     end.

End Js.
Import Js.

(* ===================================================================== *)
(** ** Process state, database tables and the effect monad *)
(* ===================================================================== *)

Module Runtime.

(** The processor client built by [new Razorpay({ key_id, key_secret })]. *)
Record Razorpay : Type := mkRazorpay {
  key_id : JsVal;
  key_secret : JsVal
}.

(** A row of the [integration] table. *)
Record Integration : Type := mkIntegration {
  name : string;
  enabled : bool;
  settings : JsVal
}.

(** An element of [orderItems] in [placeOrder]. *)
Record OrderItem : Type := mkOrderItem {
  productId : JsVal;
  variantId : JsVal;
  quantity : JsVal;
  priceAtPurchase : JsVal;
  variantSnapshot : JsVal
}.

(** The [data] object [placeOrder] hands to [prisma.order.create];
    [items] is the list under [items: { create: ... }]. *)
Record OrderData : Type := mkOrderData {
  totalAmount : JsVal;
  status : string;
  shippingAddress : JsVal;
  paymentType : JsVal;
  deliveryType : JsVal;
  deliveryCharge : JsVal;
  appliedCouponCode : JsVal;
  discountAmount : JsVal;
  userId : JsVal;
  customerName : JsVal;
  paymentStatus : string;
  items : list OrderItem
}.

(** A stored order: the identifier the database chose and the data. *)
Record Order : Type := mkOrder {
  order_id : string;
  order_data : OrderData
}.

(** The [options] object of [createRazorpayOrder]. *)
Record PaymentOptions : Type := mkPaymentOptions {
  amount : number;
  currency : string;
  receipt : string
}.

Inductive DbRequest : Type :=
| IntegrationFindUnique (where_name : string)
| OrderCreate (data : OrderData)
| ActivityLogCreate (message : string)
| ProductVariantUpdate (where_id : string) (data : JsVal).

(** What a handler does that the outside can observe. *)
Inductive Event : Type :=
| EvDb (rq : DbRequest)
| EvConsoleError (label : string) (e : Exn)
| EvOrdersCreate (client : Razorpay) (options : PaymentOptions).

(** Decisions of the outside world.  [clock n] is the value of the [n]-th
    [Date.now()] of the process; [db_fault n rq] is the error, if any, with
    which the [n]-th database call rejects request [rq]; [db_id n] is the
    identifier the database gives a row created by its [n]-th call;
    [orders_create n c o] is the processor's answer to the [n]-th
    [orders.create]. *)
Record Env : Type := mkEnv {
  clock : nat -> Z;
  db_fault : nat -> DbRequest -> option Exn;
  db_id : nat -> string;
  orders_create : nat -> Razorpay -> PaymentOptions -> Result JsVal;
  number_to_string : number -> string;
  string_to_number : string -> number
}.

Record Store : Type := mkStore {
  razorpayInstance : option Razorpay;   (* let razorpayInstance = null *)
  lastFetched : Z;                      (* let lastFetched = 0 *)
  integration_table : list Integration;
  order_table : list Order;
  activityLog_table : list string;
  productVariant_table : list (string * JsVal);   (* id, row *)
  ticks : nat;                          (* Date.now() readings so far *)
  db_calls : nat;                       (* database calls so far *)
  api_calls : nat;                      (* processor calls so far *)
  journal : list Event                  (* newest first *)
}.

Definition set_razorpayInstance (r : option Razorpay) (s : Store) : Store :=
  mkStore r (lastFetched s) (integration_table s) (order_table s)
    (activityLog_table s) (productVariant_table s) (ticks s) (db_calls s) (api_calls s) (journal s).

Definition set_lastFetched (t : Z) (s : Store) : Store :=
  mkStore (razorpayInstance s) t (integration_table s) (order_table s)
    (activityLog_table s) (productVariant_table s) (ticks s) (db_calls s) (api_calls s) (journal s).

Definition add_order (o : Order) (s : Store) : Store :=
  mkStore (razorpayInstance s) (lastFetched s) (integration_table s)
    (o :: order_table s) (activityLog_table s) (productVariant_table s) (ticks s) (db_calls s)
    (api_calls s) (journal s).

Definition add_activityLog (m : string) (s : Store) : Store :=
  mkStore (razorpayInstance s) (lastFetched s) (integration_table s)
    (order_table s) (m :: activityLog_table s) (productVariant_table s)
    (ticks s) (db_calls s)
    (api_calls s) (journal s).

Definition set_productVariant_table (t : list (string * JsVal)) (s : Store)
  : Store :=
  mkStore (razorpayInstance s) (lastFetched s) (integration_table s)
    (order_table s) (activityLog_table s) t (ticks s) (db_calls s)
    (api_calls s) (journal s).

Definition tick (s : Store) : Store :=
  mkStore (razorpayInstance s) (lastFetched s) (integration_table s)
    (order_table s) (activityLog_table s) (productVariant_table s)
    (S (ticks s)) (db_calls s)
    (api_calls s) (journal s).

Definition count_db_call (rq : DbRequest) (s : Store) : Store :=
  mkStore (razorpayInstance s) (lastFetched s) (integration_table s)
    (order_table s) (activityLog_table s) (productVariant_table s) (ticks s) (S (db_calls s))
    (api_calls s) (EvDb rq :: journal s).

Definition count_api_call (ev : Event) (s : Store) : Store :=
  mkStore (razorpayInstance s) (lastFetched s) (integration_table s)
    (order_table s) (activityLog_table s) (productVariant_table s) (ticks s) (db_calls s)
    (S (api_calls s)) (ev :: journal s).

Definition log (ev : Event) (s : Store) : Store :=
  mkStore (razorpayInstance s) (lastFetched s) (integration_table s)
    (order_table s) (activityLog_table s) (productVariant_table s) (ticks s) (db_calls s)
    (api_calls s) (ev :: journal s).

(** A computation reads the environment, updates the store and returns or
    throws; updates made before a throw stay, as in JavaScript. *)
Definition M (A : Type) : Type := Env -> Store -> Result A * Store.

Definition ret {A} (a : A) : M A := fun _ s => (Ok a, s).

Definition bind {A B} (m : M A) (k : A -> M B) : M B :=
  fun env s =>
    match m env s with
    | (Ok a, s') => k a env s'
    | (Throw e, s') => (Throw e, s')
    end.

(** [try { m } catch (e) { h e }] *)
Definition try_catch {A} (m : M A) (h : Exn -> M A) : M A :=
  fun env s =>
    match m env s with
    | (Ok a, s') => (Ok a, s')
    | (Throw e, s') => h e env s'
    end.

Definition lift {A} (r : Result A) : M A := fun _ s => (r, s).
Definition lift_env {A} (f : Env -> Result A) : M A := fun env s => (f env, s).
Definition gets {A} (f : Store -> A) : M A := fun _ s => (Ok (f s), s).
Definition asks {A} (f : Env -> A) : M A := fun env s => (Ok (f env), s).
Definition modify (f : Store -> Store) : M unit := fun _ s => (Ok tt, f s).

Declare Scope js_scope.
Delimit Scope js_scope with js.
Notation "x <- m ;; k" := (bind m (fun x => k))
  (at level 61, m at next level, right associativity) : js_scope.
Notation "m ;; k" := (bind m (fun _ => k))
  (at level 61, right associativity) : js_scope.
Local Open Scope js_scope.

(** [Date.now()] *)
Definition Date_now : M Z :=
  fun env s => (Ok (clock env (ticks s)), tick s).

(** [console.error(label, e)] *)
Definition console_error (label : string) (e : Exn) : M unit :=
  modify (log (EvConsoleError label e)).

(** One round trip to the database: it is counted and recorded, and the
    outside world decides whether it rejects. *)
Definition db_call (rq : DbRequest) : M nat :=
  fun env s =>
    match db_fault env (db_calls s) rq with
    | Some e => (Throw e, count_db_call rq s)
    | None => (Ok (db_calls s), count_db_call rq s)
    end.

(** [prisma.integration.findUnique({ where: { name } })] *)
Definition integration_findUnique (nm : string) : M (option Integration) :=
  db_call (IntegrationFindUnique nm) ;;
  gets (fun s => find (fun r => String.eqb (name r) nm) (integration_table s)).

(** [prisma.order.create({ data })] *)
Definition order_create (data : OrderData) : M Order :=
  n <- db_call (OrderCreate data) ;;
  id <- asks (fun env => db_id env n) ;;
  modify (add_order (mkOrder id data)) ;;
  ret (mkOrder id data).

(** [prisma.activityLog.create({ data: { message } })] *)
Definition activityLog_create (message : string) : M unit :=
  db_call (ActivityLogCreate message) ;;
  modify (add_activityLog message).

(** [Object.assign({}, row, data)] on JSON objects. *)
Definition assign (row data : JsVal) : JsVal :=
  match row, data with
  | JObj old, JObj new => JObj (new ++ old)
  | _, JObj new => JObj new
  | _, _ => row
  end.

(** [tx.productVariant.update({ where: { id }, data })], the write with
    which [updateProduct] changes a variant's price or attributes; it
    rejects when no row has the id. *)
Definition productVariant_update (id : string) (data : JsVal) : M unit :=
  db_call (ProductVariantUpdate id data) ;;
  rows <- gets productVariant_table ;;
  if existsb (fun r => String.eqb (fst r) id) rows then
    modify (set_productVariant_table
              (map (fun r => if String.eqb (fst r) id
                             then (fst r, assign (snd r) data) else r) rows))
  else lift (Throw (PrismaError "Record to update not found.")).

(** [razorpay.orders.create(options)] *)
Definition razorpay_orders_create (c : Razorpay) (o : PaymentOptions) : M JsVal :=
  fun env s =>
    (orders_create env (api_calls s) c o, count_api_call (EvOrdersCreate c o) s).

(** Number of configuration lookups recorded in a journal. *)
Fixpoint lookups (j : list Event) : nat :=
  match j with
  | [] => 0%nat
  | EvDb (IntegrationFindUnique _) :: rest => S (lookups rest)
  | _ :: rest => lookups rest
  end.

End Runtime.
Import Runtime.
Local Open Scope js_scope.

(* ===================================================================== *)
(** ** src/services/razorpay.service.ts *)
(* ===================================================================== *)

Module RazorpayService.

(** The two nested guards of [getRazorpayInstance]: the record exists and
    is enabled, and both [settings?.apiKey] and [settings?.apiSecret] are
    truthy.  It yields the pair [(keyId, keySecret)] the client is built
    from. *)
Definition usable_credentials (razorpaySettings : option Integration)
  : option (JsVal * JsVal) :=
  match razorpaySettings with
  | Some record =>
      if enabled record then
        let keyId := opt_get (settings record) "apiKey" in
        let keySecret := opt_get (settings record) "apiSecret" in
        if truthy keyId && truthy keySecret then Some (keyId, keySecret)
        else None
      else None
  | None => None
  end.

(** [getRazorpayInstance] *)
Definition getRazorpayInstance : M (option Razorpay) :=
  now <- Date_now ;;
  last <- gets lastFetched ;;
  let cacheValid := now - last <? 60000 in
  cached <- gets razorpayInstance ;;
  match cached, cacheValid with
  | Some instance, true => ret (Some instance)
  | _, _ =>
      try_catch
        (razorpaySettings <- integration_findUnique "Razorpay" ;;
         match usable_credentials razorpaySettings with
         | Some (keyId, keySecret) =>
             let instance := mkRazorpay keyId keySecret in
             modify (set_razorpayInstance (Some instance)) ;;
             built <- Date_now ;;
             modify (set_lastFetched built) ;;
             ret (Some instance)
         | None =>
             (* If settings are not found, disabled, or incomplete *)
             modify (set_razorpayInstance None) ;;
             ret None
         end)
        (fun error =>
           console_error "Failed to fetch Razorpay settings from DB:" error ;;
           modify (set_razorpayInstance None) ;;
           ret None)
  end.

End RazorpayService.
Import RazorpayService.

(* ===================================================================== *)
(** ** src/controllers/order.controller.ts *)
(* ===================================================================== *)

Module OrderController.

(** The request a handler receives: the parsed JSON body and the [user]
    the authentication middleware attached, if any. *)
Record Request : Type := mkRequest {
  body : JsVal;
  user : JsVal
}.

Inductive Body : Type :=
| BMessage (message : string)
| BPayment (orderId keyId : JsVal)
| BPlaced (success : bool) (order : Order).

(** How a handler ends: [res.status(c).json(b)] or [next(error)]. *)
Inductive Outcome : Type :=
| Respond (code : Z) (b : Body)
| Next (error : Exn).

Notation "'let?' x ':=' r 'in' k" := (rbind r (fun x => k))
  (at level 10, x name, r at level 100, k at level 200).

(** The condition of the [catch] block of [createRazorpayOrder]. *)
Definition is_auth_failure (error : Exn) : bool :=
  match error with
  | ApiError statusCode description =>
      match statusCode with
      | Some c => c =? 401
      | None => false
      end
      || match description with
         | Some d => negb (String.eqb d EmptyString) && includes "Authentication failed" d
         | None => false
         end
  | _ => false
  end.

(** [Math.round(totalAmount * 100)] *)
Definition minor_units (env : Env) (totalAmount : JsVal) : number :=
  Math_round
    (num_mul (to_number (number_to_string env) (string_to_number env) totalAmount)
             (num_of_Z 100)).

(** [createRazorpayOrder] *)
Definition createRazorpayOrder (req : Request) : M Outcome :=
  totalAmount <- lift (get (body req) "totalAmount") ;;
  if negb (truthy totalAmount) then
    ret (Respond 400 (BMessage "Total amount is required"))
  else
    try_catch
      (razorpay <- getRazorpayInstance ;;
       match razorpay with
       | None =>
           ret (Respond 503 (BMessage
             "Payment service is currently unavailable. Please check and enable Razorpay in Integrations with correct keys."))
       | Some razorpay =>
           razorpaySettings <- integration_findUnique "Razorpay" ;;
           let keyId :=
             opt_get (match razorpaySettings with
                      | Some record => settings record
                      | None => JUndefined
                      end) "apiKey" in
           if negb (truthy keyId) then
             ret (Respond 503 (BMessage "Razorpay Key ID is not configured."))
           else
             amount <- asks (fun env => minor_units env totalAmount) ;;
             now <- Date_now ;;
             let options :=
               mkPaymentOptions amount "INR" ("receipt_order_" ++ string_of_Z now) in
             order <- razorpay_orders_create razorpay options ;;
             orderId <- lift (get order "id") ;;
             ret (Respond 200 (BPayment orderId keyId))
       end)
      (fun error =>
         console_error "Razorpay order creation error:" error ;;
         if is_auth_failure error then
           ret (Respond 503 (BMessage
             "Razorpay authentication failed. Please check your Key ID and Key Secret in Admin Panel > Settings > Integrations."))
         else ret (Next error)).

(** The callback of [orderData.items.map]. *)
Definition order_item_of (item : JsVal) : Result OrderItem :=
  let? id := get item "id" in
  let? variant := get item "selectedVariant" in
  let? variant_id := get variant "id" in
  let? qty := get item "quantity" in
  let? price := get variant "price" in
  let? attributes := get variant "attributes" in
  Ok (mkOrderItem id variant_id qty price attributes).

(** The [data] argument of [prisma.order.create] in [placeOrder]. *)
Definition order_data_of (orderData userId : JsVal) (orderItems : list OrderItem)
  : Result OrderData :=
  let? total := get orderData "totalAmount" in
  let? address := get orderData "shippingAddress" in
  let? payment := get orderData "paymentType" in
  let? delivery := get orderData "deliveryType" in
  let? charge := get orderData "deliveryCharge" in
  let? coupon := get orderData "appliedCouponCode" in
  let? discount := get orderData "discountAmount" in
  let? customer := get orderData "customerName" in
  Ok (mkOrderData total "Processing" address payment delivery charge coupon
        discount userId customer
        (if strict_eq_str payment "cod" then "Pending" else "Success")
        orderItems).

(** The double-quote character of the template literal. *)
Definition dquote : string := String (ascii_of_nat 34) EmptyString.

(** [orderData.items.map(item => ({ ... }))] *)
Definition orderItems_of (orderData : JsVal) : Result (list OrderItem) :=
  let? itemList := get orderData "items" in
  array_map itemList order_item_of.

(** The message [placeOrder] writes to the activity feed, from
    [orderData.items[0]?.name || 'an item'] and
    [orderData.shippingAddress.city]. *)
Definition activity_message_of (env : Env) (orderData : JsVal) : Result string :=
  let? itemList := get orderData "items" in
  let? first := get_first itemList in
  let firstItemName := or_else (opt_get first "name") (JStr "an item") in
  let? address := get orderData "shippingAddress" in
  let? city := get address "city" in
  let show := to_string (number_to_string env) in
  Ok ("Someone in " ++ show city ++ " just purchased a " ++ dquote
        ++ show firstItemName ++ dquote ++ ".").

(** [placeOrder] *)
Definition placeOrder (req : Request) : M Outcome :=
  orderData <- lift (get (body req) "order") ;;
  guestDetails <- lift (get (body req) "guestDetails") ;;
  let userId := opt_get (user req) "id" in
  if negb (truthy userId) && negb (truthy (opt_get guestDetails "email")) then
    ret (Respond 401 (BMessage "Authentication is required to place an order."))
  else
    try_catch
      (orderItems <- lift (orderItems_of orderData) ;;
       data <- lift (order_data_of orderData userId orderItems) ;;
       newOrder <- order_create data ;;
       message <- lift_env (fun env => activity_message_of env orderData) ;;
       activityLog_create message ;;
       ret (Respond 201 (BPlaced true newOrder)))
      (fun error => ret (Next error)).

End OrderController.
Import OrderController.

(* ===================================================================== *)
(** ** Sample environments, stores and requests *)
(* ===================================================================== *)

Module Samples.

(** An outside world in which nothing fails and the clock reads [t]. *)
Definition calm (t : Z) : Env :=
  mkEnv (fun _ => t) (fun _ _ => None)
        (fun n => "ord_" ++ string_of_Z (Z.of_nat n))
        (fun _ _ _ => Ok (JObj [("id", JStr "order_Nx1")]))
        (fun _ => "0") (fun _ => S754_nan).

(** The same, except that every write to the activity feed is rejected. *)
Definition feed_down (t : Z) : Env :=
  mkEnv (fun _ => t)
        (fun _ rq => match rq with
                     | ActivityLogCreate _ => Some (PrismaError "feed unavailable")
                     | _ => None
                     end)
        (fun n => "ord_" ++ string_of_Z (Z.of_nat n))
        (fun _ _ _ => Ok (JObj [("id", JStr "order_Nx1")]))
        (fun _ => "0") (fun _ => S754_nan).

Definition live_keys : JsVal :=
  JObj [("apiKey", JStr "rzp_live_k"); ("apiSecret", JStr "s3cret")].

Definition razorpay_on : Integration := mkIntegration "Razorpay" true live_keys.
Definition razorpay_off : Integration := mkIntegration "Razorpay" false live_keys.
Definition razorpay_keyless : Integration :=
  mkIntegration "Razorpay" true (JObj [("apiKey", JStr "rzp_live_k")]).

Definition client : Razorpay := mkRazorpay (JStr "rzp_live_k") (JStr "s3cret").

(** A fresh process: nothing cached, empty tables but for the gateway row. *)
Definition fresh (row : Integration) : Store :=
  mkStore None 0 [row] [] [] [] 0 0 0 [].

(** The store with the rows of the [integration] table replaced, as an
    administrator's [updateIntegration] leaves it. *)
Definition with_integrations (rows : list Integration) (s : Store) : Store :=
  mkStore (razorpayInstance s) (lastFetched s) rows (order_table s)
    (activityLog_table s) (productVariant_table s) (ticks s) (db_calls s)
    (api_calls s) (journal s).

(** A process that built its client at time 1000, when the gateway row
    was on, the row having been switched off since. *)
Definition switched_off : Store :=
  with_integrations [razorpay_off]
    (snd (getRazorpayInstance (calm 1000) (fresh razorpay_on))).

(** The binary64 value of the literal [19.999]. *)
Definition d19_999 : number := S754_finite false 5629218059236409 (-48).

(** The binary64 value of the literal [2.675]. *)
Definition d2_675 : number := S754_finite false 6023564501608038 (-51).

Definition soap : JsVal :=
  JObj [("id", JStr "p1"); ("name", JStr "Soap"); ("quantity", JNum (num_of_Z 2));
        ("selectedVariant",
         JObj [("id", JStr "v1"); ("price", JNum (num_of_Z 10));
               ("attributes", JObj [("size", JStr "L")])])].

Definition basket (itemList : list JsVal) (payment : string) : JsVal :=
  JObj [("items", JArr itemList); ("totalAmount", JNum (num_of_Z 20));
        ("shippingAddress", JObj [("city", JStr "Pune")]);
        ("paymentType", JStr payment)].

Definition guest (email : string) : JsVal := JObj [("email", JStr email)].

(** A guest checkout: no [user], [guestDetails] in the body. *)
Definition guest_request (orderData guestDetails : JsVal) : Request :=
  mkRequest (JObj [("order", orderData); ("guestDetails", guestDetails)])
            JUndefined.

(** A request with neither a [user] nor [guestDetails]. *)
Definition anonymous_request (orderData : JsVal) : Request :=
  mkRequest (JObj [("order", orderData)]) JUndefined.

(** A request of the signed-in user [u1]. *)
Definition member_request (orderData : JsVal) : Request :=
  mkRequest (JObj [("order", orderData)])
            (JObj [("id", JStr "u1"); ("role", JStr "USER")]).

Definition payment_request (totalAmount : JsVal) : Request :=
  mkRequest (JObj [("totalAmount", totalAmount)]) JUndefined.

(** The order a checkout of a [basket] stores in a fresh process. *)
Definition order_of (uid : JsVal) (payment payment_status : string)
  (records : list OrderItem) : Order :=
  mkOrder "ord_0"
    (mkOrderData (JNum (num_of_Z 20)) "Processing"
       (JObj [("city", JStr "Pune")]) (JStr payment)
       JUndefined JUndefined JUndefined JUndefined uid JUndefined
       payment_status records).

Definition stored_order : string -> string -> list OrderItem -> Order :=
  order_of JUndefined.

Definition comb : JsVal :=
  JObj [("id", JStr "p2"); ("name", JStr "Comb"); ("quantity", JNum (num_of_Z 1));
        ("selectedVariant",
         JObj [("id", JStr "v7"); ("price", JNum (num_of_Z 3));
               ("attributes", JObj [("colour", JStr "red")])])].

Definition comb_record : OrderItem :=
  mkOrderItem (JStr "p2") (JStr "v7") (JNum (num_of_Z 1)) (JNum (num_of_Z 3))
              (JObj [("colour", JStr "red")]).

Definition soap_record : OrderItem :=
  mkOrderItem (JStr "p1") (JStr "v1") (JNum (num_of_Z 2)) (JNum (num_of_Z 10))
              (JObj [("size", JStr "L")]).

Definition soap_message : string :=
  "Someone in Pune just purchased a " ++ dquote ++ "Soap" ++ dquote ++ ".".

(** Guest details with other contents than [guest "a@b.c"]. *)
Definition other_guest : JsVal :=
  JObj [("email", JStr "zoe@example.org"); ("name", JStr "Zoe");
        ("phone", JStr "5550100")].


End Samples.
Import Samples.

(* ===================================================================== *)
(** ** Vocabulary of the statements *)
(* ===================================================================== *)

(** The stored configuration record of the gateway. *)
Definition gateway_config (s : Store) : option Integration :=
  find (fun r => String.eqb (name r) "Razorpay") (integration_table s).

(** The record is switched off or lacks a credential. *)
Definition unusable (record : Integration) : Prop :=
  enabled record = false
  \/ truthy (opt_get (settings record) "apiKey") = false
  \/ truthy (opt_get (settings record) "apiSecret") = false.

(** What the accessor does when the cache does not answer. *)
Definition refetch (env : Env) (s : Store) : Result (option Razorpay) * Store :=
  let rq := IntegrationFindUnique "Razorpay" in
  let s1 := count_db_call rq (tick s) in
  match db_fault env (db_calls s) rq with
  | Some e =>
      (Ok None,
       set_razorpayInstance None
         (log (EvConsoleError "Failed to fetch Razorpay settings from DB:" e) s1))
  | None =>
      match usable_credentials (gateway_config s) with
      | Some (keyId, keySecret) =>
          (Ok (Some (mkRazorpay keyId keySecret)),
           set_lastFetched (clock env (S (ticks s)))
             (tick (set_razorpayInstance (Some (mkRazorpay keyId keySecret)) s1)))
      | None => (Ok None, set_razorpayInstance None s1)
      end
  end.

(** The check at the head of [placeOrder] lets the request through: the
    body is an object and [userId] or [guestDetails?.email] is truthy. *)
Definition authorized (req : Request) : bool :=
  match get (body req) "guestDetails" with
  | Ok guestDetails =>
      truthy (opt_get (user req) "id") || truthy (opt_get guestDetails "email")
  | Throw _ => false
  end.

(** Running [placeOrder] on [req] adds the order [o] to the order table. *)
Definition places (env : Env) (s : Store) (req : Request) (o : Order) : Prop :=
  order_table (snd (placeOrder req env s)) = o :: order_table s.

Definition auth_required : Outcome :=
  Respond 401 (BMessage "Authentication is required to place an order.").

(** [placeOrder] as store passing, one case per way it can end. *)
Definition placement (env : Env) (s : Store) (req : Request)
  : Result Outcome * Store :=
  match get (body req) "order" with
  | Throw e => (Throw e, s)
  | Ok orderData =>
      if negb (authorized req) then (Ok auth_required, s)
      else
        match (let? orderItems := orderItems_of orderData in
               order_data_of orderData (opt_get (user req) "id") orderItems) with
        | Throw e => (Ok (Next e), s)
        | Ok data =>
            let s1 := count_db_call (OrderCreate data) s in
            match db_fault env (db_calls s) (OrderCreate data) with
            | Some e => (Ok (Next e), s1)
            | None =>
                let o := mkOrder (db_id env (db_calls s)) data in
                let s2 := add_order o s1 in
                match activity_message_of env orderData with
                | Throw e => (Ok (Next e), s2)
                | Ok message =>
                    let s3 := count_db_call (ActivityLogCreate message) s2 in
                    match db_fault env (S (db_calls s))
                                   (ActivityLogCreate message) with
                    | Some e => (Ok (Next e), s3)
                    | None =>
                        (Ok (Respond 201 (BPlaced true o)),
                         add_activityLog message s3)
                    end
                end
            end
        end
  end.

(** The responses of [createRazorpayOrder]. *)
Definition amount_required : Outcome :=
  Respond 400 (BMessage "Total amount is required").

Definition service_unavailable : Outcome :=
  Respond 503 (BMessage
    "Payment service is currently unavailable. Please check and enable Razorpay in Integrations with correct keys.").

Definition key_not_configured : Outcome :=
  Respond 503 (BMessage "Razorpay Key ID is not configured.").

Definition authentication_failed : Outcome :=
  Respond 503 (BMessage
    "Razorpay authentication failed. Please check your Key ID and Key Secret in Admin Panel > Settings > Integrations.").

(** The [catch] block of [createRazorpayOrder], entered with [error] in
    store [s]. *)
Definition intent_failed (error : Exn) (s : Store) : Result Outcome * Store :=
  (Ok (if is_auth_failure error then authentication_failed else Next error),
   log (EvConsoleError "Razorpay order creation error:" error) s).

(** The [apiKey] that [createRazorpayOrder] reads back from the store. *)
Definition stored_key (s : Store) : JsVal :=
  opt_get (match gateway_config s with
           | Some record => settings record
           | None => JUndefined
           end) "apiKey".

(** The [options] built from [totalAmount] when the clock reads [now]. *)
Definition options_for (env : Env) (totalAmount : JsVal) (now : Z)
  : PaymentOptions :=
  mkPaymentOptions (minor_units env totalAmount) "INR"
                   ("receipt_order_" ++ string_of_Z now).

(** [createRazorpayOrder] as store passing, one case per way it can end. *)
Definition payment_intent (env : Env) (s : Store) (req : Request)
  : Result Outcome * Store :=
  match get (body req) "totalAmount" with
  | Throw e => (Throw e, s)
  | Ok totalAmount =>
      if negb (truthy totalAmount) then (Ok amount_required, s)
      else
        match getRazorpayInstance env s with
        | (Throw e, s1) => intent_failed e s1
        | (Ok None, s1) => (Ok service_unavailable, s1)
        | (Ok (Some razorpay), s1) =>
            let rq := IntegrationFindUnique "Razorpay" in
            let s2 := count_db_call rq s1 in
            match db_fault env (db_calls s1) rq with
            | Some e => intent_failed e s2
            | None =>
                if negb (truthy (stored_key s1)) then (Ok key_not_configured, s2)
                else
                  let options := options_for env totalAmount (clock env (ticks s1)) in
                  let s3 := count_api_call (EvOrdersCreate razorpay options)
                                           (tick s2) in
                  match orders_create env (api_calls s1) razorpay options with
                  | Throw e => intent_failed e s3
                  | Ok order =>
                      match get order "id" with
                      | Throw e => intent_failed e s3
                      | Ok orderId =>
                          (Ok (Respond 200 (BPayment orderId (stored_key s1))), s3)
                      end
                  end
            end
        end
  end.

(** The tables of two stores agree. *)
Definition same_tables (s s' : Store) : Prop :=
  integration_table s' = integration_table s
  /\ order_table s' = order_table s
  /\ activityLog_table s' = activityLog_table s
  /\ productVariant_table s' = productVariant_table s.

(** The gateway cache of two stores agrees. *)
Definition same_cache (s s' : Store) : Prop :=
  razorpayInstance s' = razorpayInstance s /\ lastFetched s' = lastFetched s.

(** A line item [placeOrder] can map: an object (or any value other than
    [undefined] and [null]) whose [selectedVariant] is neither [undefined]
    nor [null]. *)
Definition mappable (item : JsVal) : bool :=
  match get item "selectedVariant" with
  | Ok JUndefined | Ok JNull | Throw _ => false
  | Ok _ => true
  end.

(** [v] is [undefined] or [null]. *)
Definition nullish (v : JsVal) : bool :=
  match v with
  | JUndefined | JNull => true
  | _ => false
  end.

(** The line items of [placeOrder] can all be mapped: [items] is an array
    of [mappable] elements. *)
Definition items_mappable (itemList : JsVal) : bool :=
  match itemList with
  | JArr elems => forallb mappable elems
  | _ => false
  end.

(* ===================================================================== *)
(** ** Regular expressions of the validators *)
(* ===================================================================== *)

(** The regular-expression literals of [auth.controller.ts] and
    [admin.controller.ts] are built from character classes, concatenation,
    [+] and [{n}] only; for such expressions [RegExp.prototype.test] asks
    whether the string ([^...$]) or one of its substrings (no anchors)
    belongs to the regular language.  A string is the sequence of its code
    units, one [ascii] each. *)
Module Regex.

Inductive Regex : Type :=
| Never
| Eps
| Class (p : ascii -> bool)
| Seq (r1 r2 : Regex)
| Alt (r1 r2 : Regex)
| Star (r : Regex).

(** [r+] *)
Definition Plus (r : Regex) : Regex := Seq r (Star r).

(** [r{n}] *)
Fixpoint Repeat (n : nat) (r : Regex) : Regex :=
  match n with
  | O => Eps
  | S n' => Seq r (Repeat n' r)
  end.

(** The language of an expression. *)
Inductive Matches : Regex -> string -> Prop :=
| MEps : Matches Eps EmptyString
| MClass p c : p c = true -> Matches (Class p) (String c EmptyString)
| MSeq r1 r2 s1 s2 :
    Matches r1 s1 -> Matches r2 s2 -> Matches (Seq r1 r2) (s1 ++ s2)
| MAltL r1 r2 s : Matches r1 s -> Matches (Alt r1 r2) s
| MAltR r1 r2 s : Matches r2 s -> Matches (Alt r1 r2) s
| MStarNil r : Matches (Star r) EmptyString
| MStarApp r s1 s2 :
    Matches r s1 -> Matches (Star r) s2 -> Matches (Star r) (s1 ++ s2).

Fixpoint nullable (r : Regex) : bool :=
  match r with
  | Never => false
  | Eps => true
  | Class _ => false
  | Seq r1 r2 => nullable r1 && nullable r2
  | Alt r1 r2 => nullable r1 || nullable r2
  | Star _ => true
  end.

(** The derivative of [r] by the character [c]. *)
Fixpoint deriv (c : ascii) (r : Regex) : Regex :=
  match r with
  | Never => Never
  | Eps => Never
  | Class p => if p c then Eps else Never
  | Seq r1 r2 =>
      if nullable r1 then Alt (Seq (deriv c r1) r2) (deriv c r2)
      else Seq (deriv c r1) r2
  | Alt r1 r2 => Alt (deriv c r1) (deriv c r2)
  | Star r1 => Seq (deriv c r1) (Star r1)
  end.

(** Membership of a string in the language, decided by derivatives. *)
Fixpoint accepts (r : Regex) (s : string) : bool :=
  match s with
  | EmptyString => nullable r
  | String c rest => accepts (deriv c r) rest
  end.

Definition any_char : ascii -> bool := fun _ => true.

(** [/^r$/.test(s)] *)
Definition test_whole (r : Regex) (s : string) : bool := accepts r s.

(** [/r/.test(s)]: some substring of [s] matches [r]. *)
Definition test_within (r : Regex) (s : string) : bool :=
  accepts (Seq (Star (Class any_char)) (Seq r (Star (Class any_char)))) s.

Definition code (c : ascii) : nat := nat_of_ascii c.

Definition in_range (lo hi : nat) (c : ascii) : bool :=
  (lo <=? code c)%nat && (code c <=? hi)%nat.

Definition one_of (chars : string) (c : ascii) : bool :=
  existsb (Ascii.eqb c) (list_ascii_of_string chars).

(** [[A-Z]], [[a-z]], [[0-9]] *)
Definition upper : ascii -> bool := in_range 65 90.
Definition lower : ascii -> bool := in_range 97 122.
Definition digit : ascii -> bool := in_range 48 57.

(** [[0-9a-fA-F]] *)
Definition hex_digit (c : ascii) : bool :=
  digit c || in_range 97 102 c || in_range 65 70 c.

(** The special characters of the password rule: the class written between
    the brackets of the fifth test of [validatePassword], the double quote
    (code 34) included. *)
Definition special (c : ascii) : bool :=
  one_of "!@#$%^&*(),.?:{}|<>" c || (code c =? 34)%nat.

(** [\s] on code units below 256: tab, line feed, vertical tab, form feed,
    carriage return, space and the no-break space. *)
Definition white_space (c : ascii) : bool :=
  in_range 9 13 c || (code c =? 32)%nat || (code c =? 160)%nat.

(** [[^\s@]] *)
Definition not_space_or_at (c : ascii) : bool :=
  negb (white_space c || (code c =? 64)%nat).

End Regex.
Import Regex.

(* ===================================================================== *)
(** ** The collaborators of the auth, audit and media code *)
(* ===================================================================== *)

(** The handlers of [auth.controller.ts], [audit.service.ts],
    [media.controller.ts] and of the storage service talk to the database
    client, to bcrypt, to the token library and to the storage client.
    None of these is part of the repository: each call is recorded in a
    trace and answered by the outside world. *)
Module Services.

(** A thrown value: one raised by the runtime or a library, or a plain
    [new Error(message)] of the repository's own. *)
Inductive Failure : Type :=
| Raised (e : Exn)
| PlainError (message : string).

Inductive Res (A : Type) : Type :=
| Done (a : A)
| Fail (f : Failure).
Arguments Done {A} a.
Arguments Fail {A} f.

(** A row as the database client returns it: its columns by name. *)
Definition Row : Type := list (string * JsVal).

Inductive Call : Type :=
| UserFindUnique (where_ : JsVal)
| UserCreate (data : JsVal)
| AdminActivityLogCreate (data : JsVal)
| BcryptHash (plain : JsVal) (rounds : Z)
| BcryptCompare (plain hashed : JsVal)
| JwtSign (payload secret options : JsVal)
| GetSignedUrl (key : string) (expires : Z) (contentType : JsVal).

Inductive Trace : Type :=
| Called (c : Call)
| Warned (message : string)
| Logged (label : string) (f : Failure).

(** The outside world.  Each answer may depend on how many calls were made
    before ([nat]); [time n] is the [n]-th [Date.now()].  [jwt_secret],
    [jwt_expiresIn] and [bucketName] are the values of [config]. *)
Record Outside : Type := mkOutside {
  time : nat -> Z;
  find_user : nat -> JsVal -> Res (option Row);
  create_user : nat -> JsVal -> Res Row;
  create_admin_log : nat -> JsVal -> Res Row;
  bcrypt_hash : nat -> JsVal -> Z -> Res string;
  bcrypt_compare : nat -> JsVal -> JsVal -> Res bool;
  jwt_sign : nat -> JsVal -> JsVal -> JsVal -> Res string;
  get_signed_url : nat -> string -> Z -> JsVal -> Res string;
  jwt_secret : JsVal;
  jwt_expiresIn : JsVal;
  bucketName : string;
  show_number : number -> string;
  read_number : string -> number
}.

Record Log : Type := mkLog {
  calls : nat;            (* calls made so far *)
  readings : nat;         (* Date.now() readings so far *)
  trace : list Trace      (* newest first *)
}.

Definition Svc (A : Type) : Type := Outside -> Log -> Res A * Log.

Definition pure {A} (a : A) : Svc A := fun _ l => (Done a, l).

Definition then_ {A B} (m : Svc A) (k : A -> Svc B) : Svc B :=
  fun w l =>
    match m w l with
    | (Done a, l') => k a w l'
    | (Fail f, l') => (Fail f, l')
    end.

(** [try { m } catch (error) { h error }] *)
Definition recover {A} (m : Svc A) (h : Failure -> Svc A) : Svc A :=
  fun w l =>
    match m w l with
    | (Done a, l') => (Done a, l')
    | (Fail f, l') => h f w l'
    end.

Definition raise {A} (f : Failure) : Svc A := fun _ l => (Fail f, l).

(** A runtime evaluation that may throw a [TypeError]. *)
Definition eval {A} (r : Result A) : Svc A :=
  fun _ l => match r with
             | Ok a => (Done a, l)
             | Throw e => (Fail (Raised e), l)
             end.

Definition world {A} (f : Outside -> A) : Svc A := fun w l => (Done (f w), l).

Definition note (t : Trace) : Svc unit :=
  fun _ l => (Done tt, mkLog (calls l) (readings l) (t :: trace l)).

(** One call to a collaborator: recorded, counted and answered. *)
Definition call {A} (c : Call) (answer : Outside -> nat -> Res A) : Svc A :=
  fun w l => (answer w (calls l),
              mkLog (S (calls l)) (readings l) (Called c :: trace l)).

(** [Date.now()] *)
Definition now : Svc Z :=
  fun w l => (Done (time w (readings l)),
              mkLog (calls l) (S (readings l)) (trace l)).

Declare Scope svc_scope.
Delimit Scope svc_scope with svc.
Notation "x <- m ;; k" := (then_ m (fun x => k))
  (at level 61, m at next level, right associativity) : svc_scope.
Notation "m ;; k" := (then_ m (fun _ => k))
  (at level 61, right associativity) : svc_scope.

(** How a handler ends: [res.status(code).json(body)] or [next(error)]. *)
Inductive Reply : Type :=
| Answer (code : Z) (content : JsVal)
| Forward (f : Failure).

(** The request as the handlers of this part read it. *)
Record Incoming : Type := mkIncoming {
  payload : JsVal;        (* req.body *)
  query : JsVal;          (* req.query *)
  actor : JsVal;          (* req.user *)
  ip : JsVal              (* req.ip *)
}.

Definition message_body (text : string) : JsVal := JObj [("message", JStr text)].

(** [const { k: _, ...rest } = row] *)
Definition omit (k : string) (row : Row) : Row :=
  filter (fun p => negb (String.eqb (fst p) k)) row.

End Services.
Import Services.

(* ===================================================================== *)
(** ** src/services/audit.service.ts *)
(* ===================================================================== *)

Module AuditService.
Local Open Scope svc_scope.

(** [logAdminAction] *)
Definition logAdminAction (req : Incoming) (action details : JsVal) : Svc unit :=
  if negb (truthy (actor req)) then
    note (Warned "Attempted to log an action without an authenticated user.")
  else
    recover
      (adminUserId <- eval (get (actor req) "id") ;;
       id <- eval (get (actor req) "id") ;;
       found <- call (UserFindUnique (JObj [("id", id)]))
                     (fun w n => find_user w n (JObj [("id", id)])) ;;
       let adminUserName :=
         or_else (match found with
                  | Some row => lookup "name" row
                  | None => JUndefined
                  end) (JStr "Unknown Admin") in
       let data := JObj [("adminUserId", adminUserId);
                         ("adminUserName", adminUserName);
                         ("action", action);
                         ("details", details);
                         ("ipAddress", ip req)] in
       call (AdminActivityLogCreate data)
            (fun w n => create_admin_log w n data) ;;
       pure tt)
      (fun error =>
         note (Logged "Failed to create admin activity log:" error)).

End AuditService.
Import AuditService.

(* ===================================================================== *)
(** ** src/controllers/auth.controller.ts *)
(* ===================================================================== *)

Module AuthController.
Local Open Scope svc_scope.

(** The result of [validatePassword]. *)
Record PasswordCheck : Type := mkPasswordCheck {
  isValid : bool;
  errors : list string
}.

(** [v.length < n] *)
Definition shorter_than (w : Outside) (v : JsVal) (n : Z) : Result bool :=
  match v with
  | JUndefined => Throw (TypeError "Cannot read properties of undefined")
  | JNull => Throw (TypeError "Cannot read properties of null")
  | JStr s => Ok (Z.of_nat (String.length s) <? n)
  | JArr elems => Ok (Z.of_nat (List.length elems) <? n)
  | JObj props =>
      Ok (SFltb (to_number (show_number w) (read_number w) (lookup "length" props))
                (num_of_Z n))
  | _ => Ok false
  end.

(** [/[p]/.test(v)] *)
Definition has_char (w : Outside) (p : ascii -> bool) (v : JsVal) : bool :=
  test_within (Class p) (to_string (show_number w) v).

(** [validatePassword] *)
Definition validatePassword (w : Outside) (password : JsVal)
  : Result PasswordCheck :=
  let? short := shorter_than w password 8 in
  let errors0 : list string := [] in
  let errors1 :=
    if short then (errors0 ++ ["Must be at least 8 characters long."])%list
    else errors0 in
  let errors2 :=
    if negb (has_char w upper password)
    then (errors1 ++ ["Must contain at least one uppercase letter."])%list
    else errors1 in
  let errors3 :=
    if negb (has_char w lower password)
    then (errors2 ++ ["Must contain at least one lowercase letter."])%list
    else errors2 in
  let errors4 :=
    if negb (has_char w digit password)
    then (errors3 ++ ["Must contain at least one number."])%list
    else errors3 in
  let errors5 :=
    if negb (has_char w special password)
    then (errors4 ++ ["Must contain at least one special character."])%list
    else errors4 in
  Ok (mkPasswordCheck (Nat.eqb (List.length errors5) 0) errors5).

(** [/^[^\s@]+@[^\s@]+\.[^\s@]+$/] *)
Definition emailRegex : Regex :=
  Seq (Plus (Class not_space_or_at))
      (Seq (Class (fun c => (code c =? 64)%nat))
           (Seq (Plus (Class not_space_or_at))
                (Seq (Class (fun c => (code c =? 46)%nat))
                     (Plus (Class not_space_or_at))))).

(** [register] *)
Definition register (req : Incoming) : Svc Reply :=
  name <- eval (get (payload req) "name") ;;
  email <- eval (get (payload req) "email") ;;
  password <- eval (get (payload req) "password") ;;
  if negb (truthy name) || negb (truthy email) || negb (truthy password) then
    pure (Answer 400 (message_body "Name, email, and password are required."))
  else
    passwordValidation <- (fun w => eval (validatePassword w password) w) ;;
    if negb (isValid passwordValidation) then
      pure (Answer 400
              (JObj [("message", JStr "Password is not strong enough.");
                     ("errors", JArr (map JStr (errors passwordValidation)))]))
    else
      shown <- world (fun w => to_string (show_number w) email) ;;
      if negb (test_whole emailRegex shown) then
        pure (Answer 400 (message_body "Please enter a valid email address."))
      else
        recover
          (existingUser <- call (UserFindUnique (JObj [("email", email)]))
                                (fun w n => find_user w n (JObj [("email", email)])) ;;
           match existingUser with
           | Some _ => pure (Answer 409 (message_body "Email already in use"))
           | None =>
               hashedPassword <- call (BcryptHash password 10)
                                      (fun w n => bcrypt_hash w n password 10) ;;
               let data := JObj [("name", name); ("email", email);
                                 ("password", JStr hashedPassword)] in
               call (UserCreate data) (fun w n => create_user w n data) ;;
               pure (Answer 201 (message_body "User registered successfully"))
           end)
          (fun error => pure (Forward error)).

(** [login] *)
Definition login (req : Incoming) : Svc Reply :=
  email <- eval (get (payload req) "email") ;;
  password <- eval (get (payload req) "password") ;;
  if negb (truthy email) || negb (truthy password) then
    pure (Answer 400 (message_body "Email and password are required"))
  else
    recover
      (found <- call (UserFindUnique (JObj [("email", email)]))
                     (fun w n => find_user w n (JObj [("email", email)])) ;;
       match found with
       | None => pure (Answer 401 (message_body "Invalid credentials"))
       | Some user =>
           isPasswordValid <-
             call (BcryptCompare password (lookup "password" user))
                  (fun w n => bcrypt_compare w n password (lookup "password" user)) ;;
           if negb isPasswordValid then
             pure (Answer 401 (message_body "Invalid credentials"))
           else
             let tokenPayload := JObj [("id", lookup "id" user);
                                       ("role", lookup "role" user)] in
             secret <- world jwt_secret ;;
             expiresIn <- world jwt_expiresIn ;;
             token <- call (JwtSign tokenPayload secret
                                    (JObj [("expiresIn", expiresIn)]))
                           (fun w n => jwt_sign w n tokenPayload secret
                                                (JObj [("expiresIn", expiresIn)])) ;;
             let authReq :=
               mkIncoming (payload req) (query req)
                          (JObj [("id", lookup "id" user);
                                 ("role", lookup "role" user)])
                          (ip req) in
             (if strict_eq_str (lookup "role" user) "ADMIN"
              then logAdminAction authReq (JStr "Admin Logged In") JUndefined
              else pure tt) ;;
             pure (Answer 200 (JObj [("token", JStr token);
                                     ("user", JObj (omit "password" user))]))
       end)
      (fun error => pure (Forward error)).

End AuthController.
Import AuthController.

(* ===================================================================== *)
(** ** The storage service and src/controllers/media.controller.ts *)
(* ===================================================================== *)

Module Media.
Local Open Scope svc_scope.








End Media.
Import Media.

(* ===================================================================== *)
(** ** src/controllers/admin.controller.ts: [isMongoDbId] *)
(* ===================================================================== *)

Module AdminController.

(** [isMongoDbId], with the expression [/^[0-9a-fA-F]{24}$/] *)
Definition isMongoDbId (w : Outside) (id : JsVal) : bool :=
  if negb (truthy id) then false
  else test_whole (Repeat 24 (Class hex_digit)) (to_string (show_number w) id).

End AdminController.
Import AdminController.

(** Every character, or some character, of a string satisfies [p]. *)
Fixpoint all_chars (p : ascii -> bool) (s : string) : bool :=
  match s with
  | EmptyString => true
  | String c rest => p c && all_chars p rest
  end.

Fixpoint some_char (p : ascii -> bool) (s : string) : bool :=
  match s with
  | EmptyString => false
  | String c rest => p c || some_char p rest
  end.

(* ===================================================================== *)
(** ** Vocabulary of the validators *)
(* ===================================================================== *)

(** The five password rules, as conditions on the characters. *)
Definition strong_password (s : string) : bool :=
  (8 <=? String.length s)%nat
  && some_char upper s && some_char lower s && some_char digit s
  && some_char special s.

(** The messages of the rules a string violates, in rule order. *)
Definition password_errors (s : string) : list string :=
  ((if (String.length s <? 8)%nat
    then ["Must be at least 8 characters long."] else [])
   ++ (if some_char upper s then []
       else ["Must contain at least one uppercase letter."])
   ++ (if some_char lower s then []
       else ["Must contain at least one lowercase letter."])
   ++ (if some_char digit s then []
       else ["Must contain at least one number."])
   ++ (if some_char special s then []
       else ["Must contain at least one special character."]))%list.

(** [local@domain.tld]: three non-empty parts without white space or [@],
    separated by an [@] and by a dot. *)
Definition email_shape (s : string) : Prop :=
  exists local domain tld,
    s = local ++ "@" ++ domain ++ "." ++ tld
    /\ local <> EmptyString /\ domain <> EmptyString /\ tld <> EmptyString
    /\ all_chars not_space_or_at local = true
    /\ all_chars not_space_or_at domain = true
    /\ all_chars not_space_or_at tld = true.

(** Number of occurrences of a character satisfying [p]. *)
Fixpoint count_chars (p : ascii -> bool) (s : string) : nat :=
  match s with
  | EmptyString => 0%nat
  | String c rest => ((if p c then 1 else 0) + count_chars p rest)%nat
  end.

Definition is_at (c : ascii) : bool := (code c =? 64)%nat.

(* ===================================================================== *)
(** ** Sample worlds for the auth, audit and media code *)
(* ===================================================================== *)

Module Cast.

Definition zoe : Row :=
  [("id", JStr "u7"); ("name", JStr "Zoe"); ("email", JStr "zoe@example.org");
   ("password", JStr "$2a$10$stored"); ("role", JStr "USER")].

Definition root : Row :=
  [("id", JStr "a1"); ("name", JStr "Root"); ("email", JStr "root@example.org");
   ("password", JStr "$2a$10$stored"); ("role", JStr "ADMIN")].

(** A world in which the user lookup answers [found], bcrypt finds the
    password to match or not, and the audit log answers [audit]. *)
Definition outside (found : Res (option Row)) (matching : bool)
  (audit : Res Row) (url : string -> Res string) : Outside :=
  mkOutside (fun _ => 1700000000000)
            (fun _ _ => found)
            (fun _ _ => Done [("id", JStr "u8")])
            (fun _ _ => audit)
            (fun _ _ _ => Done "$2a$10$fresh")
            (fun _ _ _ => Done matching)
            (fun _ _ _ _ => Done "jwt.t0ken")
            (fun _ key _ _ => url key)
            (JStr "s3cr3t") (JStr "7d") "autocosmic-media"
            (fun _ => "0") (fun _ => S754_nan).

Definition signer_up (key : string) : Res string :=
  Done ("https://signed.example/" ++ key).


Definition blank : Log := mkLog 0 0 [].

Definition here : JsVal := JStr "10.0.0.1".

Definition signup (name email password : string) : Incoming :=
  mkIncoming (JObj [("name", JStr name); ("email", JStr email);
                    ("password", JStr password)])
             (JObj []) JUndefined here.

Definition signin (email password : string) : Incoming :=
  mkIncoming (JObj [("email", JStr email); ("password", JStr password)])
             (JObj []) JUndefined here.


Definition as_admin : Incoming :=
  mkIncoming (JObj []) (JObj [])
             (JObj [("id", JStr "a1"); ("role", JStr "ADMIN")]) here.

End Cast.
Import Cast.

(** The entry [logAdminAction] writes for [req] when the user lookup
    answered [found]. *)
Definition audit_entry (req : Incoming) (action details : JsVal)
  (found : option Row) : JsVal :=
  JObj [("adminUserId", opt_get (actor req) "id");
        ("adminUserName",
         or_else (match found with
                  | Some row => lookup "name" row
                  | None => JUndefined
                  end) (JStr "Unknown Admin"));
        ("action", action);
        ("details", details);
        ("ipAddress", ip req)].

(** The database part of [register], entered once the input has passed
    validation, as trace passing. *)
Definition enrol (w : Outside) (l : Log) (name email password : JsVal)
  : Res Reply * Log :=
  let who := JObj [("email", email)] in
  let l1 := mkLog (S (calls l)) (readings l)
                  (Called (UserFindUnique who) :: trace l) in
  match find_user w (calls l) who with
  | Fail f => (Done (Forward f), l1)
  | Done (Some _) => (Done (Answer 409 (message_body "Email already in use")), l1)
  | Done None =>
      let l2 := mkLog (S (S (calls l))) (readings l)
                      (Called (BcryptHash password 10) :: trace l1) in
      match bcrypt_hash w (S (calls l)) password 10 with
      | Fail f => (Done (Forward f), l2)
      | Done hashedPassword =>
          let data := JObj [("name", name); ("email", email);
                            ("password", JStr hashedPassword)] in
          let l3 := mkLog (S (S (S (calls l)))) (readings l)
                          (Called (UserCreate data) :: trace l2) in
          match create_user w (S (S (calls l))) data with
          | Fail f => (Done (Forward f), l3)
          | Done _ =>
              (Done (Answer 201 (message_body "User registered successfully")),
               l3)
          end
      end
  end.

(** The input of [register] passes its three checks. *)
Definition acceptable (w : Outside) (name email password : JsVal) : bool :=
  truthy name && truthy email && truthy password
  && match validatePassword w password with
     | Ok check => isValid check
     | Throw _ => false
     end
  && test_whole emailRegex (to_string (show_number w) email).

(** The answer of [login] to a failed attempt. *)
Definition invalid_credentials : Reply :=
  Answer 401 (message_body "Invalid credentials").

(** The token payload and the [user] that [login] derives from a row. *)
Definition identity_of (user : Row) : JsVal :=
  JObj [("id", lookup "id" user); ("role", lookup "role" user)].

(** The body of a successful [login]. *)
Definition session (token : string) (user : Row) : JsVal :=
  JObj [("token", JStr token); ("user", JObj (omit "password" user))].

(** [login] on a truthy email and password, as trace passing. *)
Definition sign_in (w : Outside) (l : Log) (req : Incoming)
  (email password : JsVal) : Res Reply * Log :=
  let who := JObj [("email", email)] in
  let l1 := mkLog (S (calls l)) (readings l)
                  (Called (UserFindUnique who) :: trace l) in
  match find_user w (calls l) who with
  | Fail f => (Done (Forward f), l1)
  | Done None => (Done invalid_credentials, l1)
  | Done (Some user) =>
      let l2 := mkLog (S (S (calls l))) (readings l)
                      (Called (BcryptCompare password (lookup "password" user))
                         :: trace l1) in
      match bcrypt_compare w (S (calls l)) password (lookup "password" user) with
      | Fail f => (Done (Forward f), l2)
      | Done false => (Done invalid_credentials, l2)
      | Done true =>
          let options := JObj [("expiresIn", jwt_expiresIn w)] in
          let l3 := mkLog (S (S (S (calls l)))) (readings l)
                          (Called (JwtSign (identity_of user) (jwt_secret w) options)
                             :: trace l2) in
          match jwt_sign w (S (S (calls l))) (identity_of user) (jwt_secret w)
                         options with
          | Fail f => (Done (Forward f), l3)
          | Done token =>
              (Done (Answer 200 (session token user)),
               if strict_eq_str (lookup "role" user) "ADMIN"
               then snd (logAdminAction
                           (mkIncoming (payload req) (query req)
                                       (identity_of user) (ip req))
                           (JStr "Admin Logged In") JUndefined w l3)
               else l3)
          end
      end
  end.




(* ===================================================================== *)
(** ** More sample environments and stores *)
(* ===================================================================== *)

Module Scenes.

(** An outside world in which every database call is rejected. *)
Definition db_down (t : Z) : Env :=
  mkEnv (fun _ => t) (fun _ _ => Some (PrismaError "connection refused"))
        (fun n => "ord_" ++ string_of_Z (Z.of_nat n))
        (fun _ _ _ => Ok (JObj [("id", JStr "order_Nx1")]))
        (fun _ => "0") (fun _ => S754_nan).


(** An outside world whose clock advances by [step] at every reading. *)
Definition ticking (start step : Z) : Env :=
  mkEnv (fun n => start + step * Z.of_nat n) (fun _ _ => None)
        (fun n => "ord_" ++ string_of_Z (Z.of_nat n))
        (fun _ _ _ => Ok (JObj [("id", JStr "order_Nx1")]))
        (fun _ => "0") (fun _ => S754_nan).

Definition rotated_keys : JsVal :=
  JObj [("apiKey", JStr "rzp_live_new"); ("apiSecret", JStr "n3w")].

(** A process that built its client at time 1000, the keys of the gateway
    row having been replaced since. *)
Definition rotated : Store :=
  with_integrations [mkIntegration "Razorpay" true rotated_keys]
    (snd (getRazorpayInstance (calm 1000) (fresh razorpay_on))).


(** A line item without a [selectedVariant]. *)
Definition loose_item : JsVal :=
  JObj [("id", JStr "p9"); ("name", JStr "Brush"); ("quantity", JNum (num_of_Z 1))].

(** An order payload without a [shippingAddress]. *)
Definition basket_nowhere (itemList : list JsVal) : JsVal :=
  JObj [("items", JArr itemList); ("totalAmount", JNum (num_of_Z 20));
        ("paymentType", JStr "cod")].

Definition order_nowhere (records : list OrderItem) : Order :=
  mkOrder "ord_0"
    (mkOrderData (JNum (num_of_Z 20)) "Processing" JUndefined (JStr "cod")
       JUndefined JUndefined JUndefined JUndefined (JStr "u1") JUndefined
       "Pending" records).

End Scenes.
Import Scenes.

(** Unfold the monadic operations, and the handlers themselves, down to
    store passing. *)
Ltac run_ops :=
  cbv beta iota delta
    [bind try_catch ret lift lift_env gets asks modify
     Date_now console_error db_call integration_findUnique order_create
     activityLog_create razorpay_orders_create productVariant_update].

Ltac run_handler :=
  unfold getRazorpayInstance, createRazorpayOrder, placeOrder; run_ops.

(** The same for the computations over the collaborators' trace. *)
Ltac run_svc :=
  cbv beta iota delta
    [then_ recover pure raise eval world note call now].

(* ===================================================================== *)
(** ** The gateway-client cache *)
(* ===================================================================== *)

Section GatewayCache.

Lemma unusable_no_credentials record :
  unusable record -> usable_credentials (Some record) = None.
Proof.
  unfold unusable, usable_credentials.
  intros [H | [H | H]]; destruct (enabled record); try discriminate;
    try reflexivity; rewrite H; try reflexivity.
  now rewrite andb_false_r.
Qed.

(** On a hit the accessor only reads the clock. *)
Lemma getRazorpayInstance_hit env s instance :
  razorpayInstance s = Some instance ->
  clock env (ticks s) - lastFetched s < 60000 ->
  getRazorpayInstance env s = (Ok (Some instance), tick s).
Proof.
  intros Hc Ht. run_handler. cbn.
  rewrite Hc. apply Z.ltb_lt in Ht. now rewrite Ht.
Qed.

Lemma getRazorpayInstance_miss env s :
  razorpayInstance s = None \/ 60000 <= clock env (ticks s) - lastFetched s ->
  getRazorpayInstance env s = refetch env s.
Proof.
  intros Hmiss.
  unfold refetch, gateway_config. run_handler. cbn.
  destruct (razorpayInstance s) as [c|] eqn:Ec;
    destruct (clock env (ticks s) - lastFetched s <? 60000) eqn:Et;
    try (apply Z.ltb_lt in Et; destruct Hmiss; [discriminate | lia]).
  all: cbn; destruct (db_fault env (db_calls s) (IntegrationFindUnique "Razorpay"));
    cbn; try reflexivity.
  all: destruct (usable_credentials _) as [[k k']|]; reflexivity.
Qed.

Lemma hit_or_miss env s :
  (exists instance, razorpayInstance s = Some instance
                    /\ clock env (ticks s) - lastFetched s < 60000)
  \/ (razorpayInstance s = None \/ 60000 <= clock env (ticks s) - lastFetched s).
Proof.
  destruct (razorpayInstance s) as [c|]; [|now right; left].
  destruct (Z_lt_ge_dec (clock env (ticks s) - lastFetched s) 60000).
  - left. now exists c.
  - right. right. lia.
Qed.

(** The accessor never throws. *)
Lemma getRazorpayInstance_total env s :
  exists r, fst (getRazorpayInstance env s) = Ok r.
Proof.
  destruct (hit_or_miss env s) as [(c & Hc & Ht) | Hmiss].
  - rewrite (getRazorpayInstance_hit _ _ _ Hc Ht). now exists (Some c).
  - rewrite (getRazorpayInstance_miss _ _ Hmiss). unfold refetch.
    destruct (db_fault _ _ _); [now exists None|].
    destruct (usable_credentials _) as [[k k']|]; eexists; reflexivity.
Qed.

(** Without a cached client the accessor asks the database exactly once. *)
Lemma empty_cache_looks_up env s :
  razorpayInstance s = None ->
  lookups (journal (snd (getRazorpayInstance env s))) = S (lookups (journal s))
  /\ db_calls (snd (getRazorpayInstance env s)) = S (db_calls s).
Proof.
  intros Hnone.
  rewrite (getRazorpayInstance_miss env s (or_introl Hnone)). unfold refetch.
  destruct (db_fault _ _ _); [now split|].
  destruct (usable_credentials _) as [[k k']|]; now split.
Qed.

(** C5: when a client is cached and fewer than 60000 ms have elapsed since
    [lastFetched] was recorded, [getRazorpayInstance] returns that client and
    performs no configuration lookup: no database call is made, nothing is
    added to the journal, and the cache is left as it was. *)
Theorem cached_client_served_without_lookup env s instance :
  razorpayInstance s = Some instance ->
  clock env (ticks s) - lastFetched s < 60000 ->
  fst (getRazorpayInstance env s) = Ok (Some instance)
  /\ journal (snd (getRazorpayInstance env s)) = journal s
  /\ db_calls (snd (getRazorpayInstance env s)) = db_calls s
  /\ razorpayInstance (snd (getRazorpayInstance env s)) = Some instance
  /\ lastFetched (snd (getRazorpayInstance env s)) = lastFetched s.
Proof.
  intros Hc Ht. rewrite (getRazorpayInstance_hit env s instance Hc Ht).
  cbn. auto.
Qed.

Lemma cached_client_served_without_lookup_witness :
  fst (getRazorpayInstance (calm 30000) switched_off) = Ok (Some client)
  /\ journal (snd (getRazorpayInstance (calm 30000) switched_off))
     = journal switched_off
  /\ db_calls (snd (getRazorpayInstance (calm 30000) switched_off))
     = db_calls switched_off
  /\ razorpayInstance (snd (getRazorpayInstance (calm 30000) switched_off))
     = Some client
  /\ lastFetched (snd (getRazorpayInstance (calm 30000) switched_off))
     = lastFetched switched_off.
Proof.
  apply (cached_client_served_without_lookup (calm 30000) switched_off client).
  - reflexivity.
  - vm_compute. reflexivity.
Defined.

(** C1, as stated, fails: the gateway row is switched off, yet a call made
    29 seconds after the client was built returns the cached client. *)
Lemma disabled_config_served_from_cache :
  gateway_config switched_off = Some razorpay_off
  /\ unusable razorpay_off
  /\ clock (calm 30000) (ticks switched_off) - lastFetched switched_off = 29000
  /\ fst (getRazorpayInstance (calm 30000) switched_off) = Ok (Some client)
  /\ fst (getRazorpayInstance (calm 30000) switched_off) <> Ok None.
Proof.
  repeat split; try reflexivity.
  - left. reflexivity.
  - vm_compute. discriminate.
Qed.

(** C1, amended: when the stored gateway record is switched off or lacks a
    credential and the call is not served from the cache (no client is
    cached, or 60000 ms or more have elapsed since [lastFetched]), then
    [getRazorpayInstance] returns no client and leaves no client cached. *)
Theorem unusable_config_yields_no_client_past_cache env s record :
  gateway_config s = Some record ->
  unusable record ->
  razorpayInstance s = None \/ 60000 <= clock env (ticks s) - lastFetched s ->
  fst (getRazorpayInstance env s) = Ok None
  /\ razorpayInstance (snd (getRazorpayInstance env s)) = None.
Proof.
  intros Hcfg Hbad Hmiss.
  rewrite (getRazorpayInstance_miss env s Hmiss). unfold refetch.
  rewrite Hcfg, (unusable_no_credentials record Hbad).
  destruct (db_fault _ _ _); now split.
Qed.

Lemma unusable_config_yields_no_client_past_cache_witness :
  fst (getRazorpayInstance (calm 90000) switched_off) = Ok None
  /\ razorpayInstance (snd (getRazorpayInstance (calm 90000) switched_off)) = None.
Proof.
  apply (unusable_config_yields_no_client_past_cache
           (calm 90000) switched_off razorpay_off).
  - reflexivity.
  - left. reflexivity.
  - right. vm_compute. discriminate.
Defined.

(** C9: whenever [getRazorpayInstance] does not return a client, the cached
    instance is null afterwards, and the next call, whatever the clock
    reads, performs exactly one fresh configuration lookup. *)
Theorem unavailable_result_is_never_cached env s :
  (forall c, fst (getRazorpayInstance env s) <> Ok (Some c)) ->
  razorpayInstance (snd (getRazorpayInstance env s)) = None
  /\ forall env',
       lookups (journal (snd (getRazorpayInstance env'
                                (snd (getRazorpayInstance env s)))))
       = S (lookups (journal (snd (getRazorpayInstance env s))))
       /\ db_calls (snd (getRazorpayInstance env'
                           (snd (getRazorpayInstance env s))))
          = S (db_calls (snd (getRazorpayInstance env s))).
Proof.
  intros Hno.
  assert (Hnull : razorpayInstance (snd (getRazorpayInstance env s)) = None).
  { destruct (hit_or_miss env s) as [(c & Hc & Ht) | Hmiss].
    - exfalso. apply (Hno c).
      now rewrite (getRazorpayInstance_hit env s c Hc Ht).
    - revert Hno. rewrite (getRazorpayInstance_miss env s Hmiss).
      unfold refetch.
      destruct (db_fault _ _ _); [reflexivity|].
      destruct (usable_credentials _) as [[k k']|]; [|reflexivity].
      intros Hno. exfalso. now apply (Hno (mkRazorpay k k')). }
  split; [exact Hnull|].
  intros env'. now apply empty_cache_looks_up.
Qed.

Lemma unavailable_result_is_never_cached_witness :
  razorpayInstance (snd (getRazorpayInstance (calm 5000) (fresh razorpay_keyless)))
  = None
  /\ forall env',
       lookups (journal (snd (getRazorpayInstance env'
          (snd (getRazorpayInstance (calm 5000) (fresh razorpay_keyless))))))
       = S (lookups (journal
              (snd (getRazorpayInstance (calm 5000) (fresh razorpay_keyless)))))
       /\ db_calls (snd (getRazorpayInstance env'
             (snd (getRazorpayInstance (calm 5000) (fresh razorpay_keyless)))))
          = S (db_calls
                 (snd (getRazorpayInstance (calm 5000) (fresh razorpay_keyless)))).
Proof.
  apply (unavailable_result_is_never_cached (calm 5000) (fresh razorpay_keyless)).
  intros c. vm_compute. discriminate.
Defined.

End GatewayCache.

(* ===================================================================== *)
(** ** [Math.round] on binary64 numbers *)
(* ===================================================================== *)

Section Rounding.










End Rounding.

(* ===================================================================== *)
(** ** Order placement *)
(* ===================================================================== *)

Section OrderPlacement.

Lemma placeOrder_placement env s req :
  placeOrder req env s = placement env s req.
Proof.
  unfold placement, authorized, auth_required. run_handler.
  destruct (body req) as [| |b|x|str|elems|props]; cbn [get]; try reflexivity.
  all: match goal with
       | |- context [negb (truthy ?u) && negb (truthy ?g)] =>
           rewrite <- (negb_orb (truthy u) (truthy g));
           destruct (negb (truthy u || truthy g)); [reflexivity|]
       end.
  all: match goal with
       | |- context [orderItems_of ?od] =>
           destruct (orderItems_of od) as [orderItems|e]; cbn [rbind];
           [|reflexivity];
           destruct (order_data_of od (opt_get (user req) "id") orderItems)
             as [data|e]; [|reflexivity]
       end.
  all: cbn [db_calls count_db_call];
    destruct (db_fault env (db_calls s) (OrderCreate data)); [reflexivity|];
    cbn [db_calls count_db_call add_order].
  all: match goal with
       | |- context [activity_message_of ?en ?od] =>
           destruct (activity_message_of en od) as [message|e]; [|reflexivity]
       end.
  all: cbn [db_calls count_db_call add_order];
    destruct (db_fault env (S (db_calls s)) (ActivityLogCreate message));
    reflexivity.
Qed.

Lemma cons_not_self {A} (x : A) (l : list A) : l <> x :: l.
Proof.
  intros H. apply (f_equal (@List.length A)) in H. cbn in H. lia.
Qed.

Lemma orderItems_of_array orderData orderItems :
  orderItems_of orderData = Ok orderItems ->
  exists elems,
    get orderData "items" = Ok (JArr elems)
    /\ map_result order_item_of elems = Ok orderItems.
Proof.
  unfold orderItems_of.
  destruct (get orderData "items") as [itemList|e]; cbn [rbind];
    [|discriminate].
  destruct itemList; cbn [array_map]; try discriminate.
  intros H. now exists elems.
Qed.

(** The fields of the data object come straight from [orderData]. *)
Lemma order_data_of_fields orderData uid orderItems data :
  order_data_of orderData uid orderItems = Ok data ->
  items data = orderItems
  /\ userId data = uid
  /\ status data = "Processing"
  /\ get orderData "paymentType" = Ok (paymentType data)
  /\ get orderData "totalAmount" = Ok (totalAmount data)
  /\ get orderData "shippingAddress" = Ok (shippingAddress data)
  /\ paymentStatus data
     = (if strict_eq_str (paymentType data) "cod" then "Pending" else "Success").
Proof.
  unfold order_data_of.
  destruct (get orderData "totalAmount") as [total|]; cbn [rbind]; [|discriminate].
  destruct (get orderData "shippingAddress") as [address|]; cbn [rbind]; [|discriminate].
  destruct (get orderData "paymentType") as [payment|]; cbn [rbind]; [|discriminate].
  destruct (get orderData "deliveryType"); cbn [rbind]; [|discriminate].
  destruct (get orderData "deliveryCharge"); cbn [rbind]; [|discriminate].
  destruct (get orderData "appliedCouponCode"); cbn [rbind]; [|discriminate].
  destruct (get orderData "discountAmount"); cbn [rbind]; [|discriminate].
  destruct (get orderData "customerName"); cbn [rbind]; [|discriminate].
  intros H. injection H as <-. cbn. repeat split; reflexivity.
Qed.

(** What is known once an order has been added. *)
Lemma places_inv env s req o :
  places env s req o ->
  exists orderData elems,
    get (body req) "order" = Ok orderData
    /\ authorized req = true
    /\ orderItems_of orderData = Ok (items (order_data o))
    /\ get orderData "items" = Ok (JArr elems)
    /\ map_result order_item_of elems = Ok (items (order_data o))
    /\ order_data_of orderData (opt_get (user req) "id") (items (order_data o))
       = Ok (order_data o)
    /\ db_fault env (db_calls s) (OrderCreate (order_data o)) = None
    /\ o = mkOrder (db_id env (db_calls s)) (order_data o).
Proof.
  unfold places. rewrite placeOrder_placement. unfold placement.
  destruct (get (body req) "order") as [orderData|e];
    [|intros H; now apply cons_not_self in H].
  destruct (authorized req); cbn [negb];
    [|intros H; now apply cons_not_self in H].
  destruct (orderItems_of orderData) as [orderItems|e] eqn:Eitems; cbn [rbind];
    [|intros H; now apply cons_not_self in H].
  destruct (order_data_of orderData (opt_get (user req) "id") orderItems)
    as [data|e] eqn:Edata; [|intros H; now apply cons_not_self in H].
  destruct (db_fault env (db_calls s) (OrderCreate data)) eqn:Efault;
    [intros H; now apply cons_not_self in H|].
  destruct (orderItems_of_array _ _ Eitems) as (elems & Hget & Hmap).
  destruct (order_data_of_fields _ _ _ _ Edata) as (Hitems & _).
  intros H.
  assert (Ho : o = mkOrder (db_id env (db_calls s)) data).
  { destruct (activity_message_of env orderData) as [message|e];
      [destruct (db_fault env (S (db_calls s)) (ActivityLogCreate message))|];
      cbn in H; now injection H. }
  subst o. cbn [order_data]. rewrite Hitems.
  exists orderData, elems. repeat split; assumption.
Qed.

Lemma map_result_length {A B} (f : A -> Result B) l l' :
  map_result f l = Ok l' -> List.length l' = List.length l.
Proof.
  revert l'. induction l as [|a l IH]; intros l'; cbn.
  - intros H. now injection H as <-.
  - destruct (f a) as [b|]; cbn [rbind]; [|discriminate].
    destruct (map_result f l) as [bs|]; cbn [rbind]; [|discriminate].
    intros H. injection H as <-. cbn. f_equal. now apply IH.
Qed.

Lemma map_result_nth {A B} (f : A -> Result B) l l' k a :
  map_result f l = Ok l' ->
  nth_error l k = Some a ->
  exists b, nth_error l' k = Some b /\ f a = Ok b.
Proof.
  revert l' k. induction l as [|x l IH]; intros l' k; cbn.
  - intros _ H. destruct k; discriminate.
  - destruct (f x) as [b|] eqn:Ex; cbn [rbind]; [|discriminate].
    destruct (map_result f l) as [bs|]; cbn [rbind]; [|discriminate].
    intros H. injection H as <-. destruct k as [|k]; cbn.
    + intros Ha. injection Ha as <-. now exists b.
    + intros Ha. now apply IH.
Qed.

Lemma order_item_of_fields item record :
  order_item_of item = Ok record ->
  exists variant,
    get item "selectedVariant" = Ok variant
    /\ get item "id" = Ok (productId record)
    /\ get variant "id" = Ok (variantId record)
    /\ get item "quantity" = Ok (quantity record)
    /\ get variant "price" = Ok (priceAtPurchase record)
    /\ get variant "attributes" = Ok (variantSnapshot record).
Proof.
  unfold order_item_of.
  destruct (get item "id") as [id|] eqn:Eid; cbn [rbind]; [|discriminate].
  destruct (get item "selectedVariant") as [variant|] eqn:Ev; cbn [rbind];
    [|discriminate].
  destruct (get variant "id") as [vid|] eqn:Evid; cbn [rbind]; [|discriminate].
  destruct (get item "quantity") as [qty|] eqn:Eq; cbn [rbind]; [|discriminate].
  destruct (get variant "price") as [price|] eqn:Ep; cbn [rbind]; [|discriminate].
  destruct (get variant "attributes") as [attrs|] eqn:Ea; cbn [rbind];
    [|discriminate].
  intros H. injection H as <-. exists variant. cbn. repeat split; assumption.
Qed.

Lemma strict_eq_str_true v str :
  strict_eq_str v str = true <-> v = JStr str.
Proof.
  destruct v; cbn; try (split; [discriminate|intros H; discriminate]).
  rewrite String.eqb_eq. split; [now intros ->|intros H; now injection H].
Qed.

Lemma productVariant_update_frame env s id data :
  order_table (snd (productVariant_update id data env s)) = order_table s.
Proof.
  run_handler. cbn.
  destruct (db_fault env (db_calls s) (ProductVariantUpdate id data));
    [reflexivity|].
  cbn. destruct (existsb _ _); reflexivity.
Qed.

(** C2, as stated, fails: a signed-in user's request whose [items] array
    is empty is accepted, and the order it stores has no item. *)
Lemma order_without_items_is_created :
  places (calm 0) (fresh razorpay_on) (member_request (basket [] "cod"))
         (order_of (JStr "u1") "cod" "Pending" [])
  /\ fst (placeOrder (member_request (basket [] "cod"))
                     (calm 0) (fresh razorpay_on))
     = Ok (Respond 201 (BPlaced true (order_of (JStr "u1") "cod" "Pending" [])))
  /\ items (order_data (order_of (JStr "u1") "cod" "Pending" [])) = [].
Proof. repeat split. Qed.

(** C2, amended: an order created by [placeOrder] has exactly as many order
    items as the payload's [items] array has elements; so it has at least
    one item whenever the payload lists at least one line item. *)
Theorem order_has_an_item_per_line env s req o orderData elems :
  places env s req o ->
  get (body req) "order" = Ok orderData ->
  get orderData "items" = Ok (JArr elems) ->
  List.length (items (order_data o)) = List.length elems
  /\ (elems <> [] -> items (order_data o) <> []).
Proof.
  intros Hplaces Hbody Hitems.
  destruct (places_inv _ _ _ _ Hplaces)
    as (od & elems' & Hbody' & _ & _ & Hitems' & Hmap & _).
  rewrite Hbody in Hbody'. injection Hbody' as <-.
  rewrite Hitems in Hitems'. injection Hitems' as <-.
  pose proof (map_result_length _ _ _ Hmap) as Hlen.
  split; [exact Hlen|].
  intros Hne Hnil. rewrite Hnil in Hlen. destruct elems; [congruence|discriminate].
Qed.

Lemma order_has_an_item_per_line_witness :
  List.length (items (order_data (stored_order "cod" "Pending" [soap_record])))
  = List.length [soap]
  /\ ([soap] <> [] ->
      items (order_data (stored_order "cod" "Pending" [soap_record])) <> []).
Proof.
  apply (order_has_an_item_per_line (calm 0) (fresh razorpay_on)
           (guest_request (basket [soap] "cod") (guest "a@b.c"))
           (stored_order "cod" "Pending" [soap_record])
           (basket [soap] "cod") [soap]).
  - vm_compute. reflexivity.
  - reflexivity.
  - reflexivity.
Defined.

(** C3: when the order has been created and the write of the activity-feed
    record then fails with [e], [placeOrder] ends in [next(e)] and reports
    no success, although the order stays stored and no feed record is
    written; a failure of the order write itself ends in [next] in the
    same way. *)
Theorem feed_failure_fails_placement env s req orderData o message e :
  get (body req) "order" = Ok orderData ->
  places env s req o ->
  activity_message_of env orderData = Ok message ->
  db_fault env (S (db_calls s)) (ActivityLogCreate message) = Some e ->
  fst (placeOrder req env s) = Ok (Next e)
  /\ order_table (snd (placeOrder req env s)) = o :: order_table s
  /\ activityLog_table (snd (placeOrder req env s)) = activityLog_table s
  /\ forall env0 e0,
       db_fault env0 (db_calls s) (OrderCreate (order_data o)) = Some e0 ->
       fst (placeOrder req env0 s) = Ok (Next e0).
Proof.
  intros Hbody Hplaces Hmsg Hfault.
  destruct (places_inv _ _ _ _ Hplaces)
    as (od & elems & Hbody' & Hauth & Hitems & _ & _ & Hdata & Hok & Ho).
  rewrite Hbody in Hbody'. injection Hbody' as <-.
  split; [|split; [exact Hplaces|split]].
  - rewrite placeOrder_placement. unfold placement.
    rewrite Hbody, Hauth, Hitems. cbn [negb rbind].
    rewrite Hdata, Hok, Hmsg, Hfault. reflexivity.
  - rewrite placeOrder_placement. unfold placement.
    rewrite Hbody, Hauth, Hitems. cbn [negb rbind].
    rewrite Hdata, Hok, Hmsg, Hfault. reflexivity.
  - intros env0 e0 Hfault0.
    rewrite placeOrder_placement. unfold placement.
    rewrite Hbody, Hauth, Hitems. cbn [negb rbind].
    rewrite Hdata, Hfault0. reflexivity.
Qed.

Lemma feed_failure_fails_placement_witness :
  fst (placeOrder (guest_request (basket [soap] "cod") (guest "a@b.c"))
                  (feed_down 0) (fresh razorpay_on))
  = Ok (Next (PrismaError "feed unavailable"))
  /\ order_table (snd (placeOrder
                         (guest_request (basket [soap] "cod") (guest "a@b.c"))
                         (feed_down 0) (fresh razorpay_on)))
     = stored_order "cod" "Pending" [soap_record]
         :: order_table (fresh razorpay_on)
  /\ activityLog_table (snd (placeOrder
                         (guest_request (basket [soap] "cod") (guest "a@b.c"))
                         (feed_down 0) (fresh razorpay_on)))
     = activityLog_table (fresh razorpay_on)
  /\ forall env0 e0,
       db_fault env0 (db_calls (fresh razorpay_on))
         (OrderCreate (order_data (stored_order "cod" "Pending" [soap_record])))
       = Some e0 ->
       fst (placeOrder (guest_request (basket [soap] "cod") (guest "a@b.c"))
                       env0 (fresh razorpay_on))
       = Ok (Next e0).
Proof.
  apply (feed_failure_fails_placement (feed_down 0) (fresh razorpay_on)
           (guest_request (basket [soap] "cod") (guest "a@b.c"))
           (basket [soap] "cod")
           (stored_order "cod" "Pending" [soap_record])
           soap_message (PrismaError "feed unavailable")).
  - reflexivity.
  - vm_compute. reflexivity.
  - reflexivity.
  - reflexivity.
Defined.

(** C4: an order created by [placeOrder] stores the payload's
    [paymentType], and its [paymentStatus] is "Pending" when that value is
    the string "cod" and "Success" for every other value. *)
Theorem payment_status_at_creation env s req o orderData :
  places env s req o ->
  get (body req) "order" = Ok orderData ->
  get orderData "paymentType" = Ok (paymentType (order_data o))
  /\ (paymentType (order_data o) = JStr "cod" ->
      paymentStatus (order_data o) = "Pending")
  /\ (paymentType (order_data o) <> JStr "cod" ->
      paymentStatus (order_data o) = "Success").
Proof.
  intros Hplaces Hbody.
  destruct (places_inv _ _ _ _ Hplaces)
    as (od & elems & Hbody' & _ & _ & _ & _ & Hdata & _).
  rewrite Hbody in Hbody'. injection Hbody' as <-.
  destruct (order_data_of_fields _ _ _ _ Hdata)
    as (_ & _ & _ & Hpay & _ & _ & Hstatus).
  split; [exact Hpay|]. rewrite Hstatus. split.
  - intros ->. reflexivity.
  - intros Hne.
    destruct (strict_eq_str (paymentType (order_data o)) "cod") eqn:E;
      [|reflexivity].
    apply strict_eq_str_true in E. contradiction.
Qed.

Lemma payment_status_at_creation_witness :
  get (basket [soap] "card") "paymentType"
  = Ok (paymentType (order_data (stored_order "card" "Success" [soap_record])))
  /\ (paymentType (order_data (stored_order "card" "Success" [soap_record]))
      = JStr "cod" ->
      paymentStatus (order_data (stored_order "card" "Success" [soap_record]))
      = "Pending")
  /\ (paymentType (order_data (stored_order "card" "Success" [soap_record]))
      <> JStr "cod" ->
      paymentStatus (order_data (stored_order "card" "Success" [soap_record]))
      = "Success").
Proof.
  apply (payment_status_at_creation (calm 0) (fresh razorpay_on)
           (guest_request (basket [soap] "card") (guest "a@b.c"))
           (stored_order "card" "Success" [soap_record])
           (basket [soap] "card")).
  - vm_compute. reflexivity.
  - reflexivity.
Defined.

(** C6: when [placeOrder] stores an order for a payload with N line items,
    the order holds exactly N order-item records, and the k-th record
    carries the k-th line item's [id], its [selectedVariant]'s [id], its
    [quantity], and the [price] and [attributes] of its [selectedVariant]
    as the payload gave them.  The record is a copy of the payload: the
    same request stores the same data whatever the store holds, and a later
    update of a variant row leaves the stored orders as they are. *)
Theorem order_items_snapshot_the_payload env s req o orderData elems :
  places env s req o ->
  get (body req) "order" = Ok orderData ->
  get orderData "items" = Ok (JArr elems) ->
  List.length (items (order_data o)) = List.length elems
  /\ (forall k item,
        nth_error elems k = Some item ->
        exists variant record,
          nth_error (items (order_data o)) k = Some record
          /\ get item "selectedVariant" = Ok variant
          /\ get item "id" = Ok (productId record)
          /\ get variant "id" = Ok (variantId record)
          /\ get item "quantity" = Ok (quantity record)
          /\ get variant "price" = Ok (priceAtPurchase record)
          /\ get variant "attributes" = Ok (variantSnapshot record))
  /\ (forall env2 s2 o2, places env2 s2 req o2 -> order_data o2 = order_data o)
  /\ (forall env' id data,
        order_table (snd (productVariant_update id data env'
                            (snd (placeOrder req env s))))
        = o :: order_table s).
Proof.
  intros Hplaces Hbody Hitems.
  destruct (places_inv _ _ _ _ Hplaces)
    as (od & elems' & Hbody' & _ & Hof & Hitems' & Hmap & Hdata & _).
  rewrite Hbody in Hbody'. injection Hbody' as <-.
  rewrite Hitems in Hitems'. injection Hitems' as <-.
  split; [now apply (map_result_length order_item_of)|].
  split; [|split].
  - intros k item Hk.
    destruct (map_result_nth _ _ _ _ _ Hmap Hk) as (record & Hrec & Hitem).
    destruct (order_item_of_fields _ _ Hitem) as (variant & Hv & Hfields).
    exists variant, record. now repeat split.
  - intros env2 s2 o2 Hplaces2.
    destruct (places_inv _ _ _ _ Hplaces2)
      as (od2 & _ & Hbody2 & _ & Hof2 & _ & _ & Hdata2 & _).
    rewrite Hbody in Hbody2. injection Hbody2 as <-.
    rewrite Hof in Hof2. injection Hof2 as Heq. rewrite <- Heq in Hdata2.
    rewrite Hdata in Hdata2. now injection Hdata2.
  - intros env' id data. rewrite productVariant_update_frame. exact Hplaces.
Qed.

Lemma order_items_snapshot_the_payload_witness :
  List.length (items (order_data (stored_order "cod" "Pending" [soap_record; comb_record])))
  = List.length [soap; comb]
  /\ (forall k item,
        nth_error [soap; comb] k = Some item ->
        exists variant record,
          nth_error (items (order_data
                       (stored_order "cod" "Pending" [soap_record; comb_record]))) k
          = Some record
          /\ get item "selectedVariant" = Ok variant
          /\ get item "id" = Ok (productId record)
          /\ get variant "id" = Ok (variantId record)
          /\ get item "quantity" = Ok (quantity record)
          /\ get variant "price" = Ok (priceAtPurchase record)
          /\ get variant "attributes" = Ok (variantSnapshot record))
  /\ (forall env2 s2 o2,
        places env2 s2 (guest_request (basket [soap; comb] "cod") (guest "a@b.c")) o2 ->
        order_data o2 = order_data (stored_order "cod" "Pending" [soap_record; comb_record]))
  /\ (forall env' id data,
        order_table (snd (productVariant_update id data env'
           (snd (placeOrder (guest_request (basket [soap; comb] "cod") (guest "a@b.c"))
                            (calm 0) (fresh razorpay_on)))))
        = stored_order "cod" "Pending" [soap_record; comb_record]
            :: order_table (fresh razorpay_on)).
Proof.
  apply (order_items_snapshot_the_payload (calm 0) (fresh razorpay_on)
           (guest_request (basket [soap; comb] "cod") (guest "a@b.c"))
           (stored_order "cod" "Pending" [soap_record; comb_record])
           (basket [soap; comb] "cod") [soap; comb]).
  - vm_compute. reflexivity.
  - reflexivity.
  - reflexivity.
Defined.

(** C7: when the request carries no truthy [user.id] and no truthy
    [guestDetails.email] (in particular no [guestDetails] at all),
    [placeOrder] answers 401 "Authentication is required to place an
    order." and leaves the whole store untouched: no order, no order item,
    no activity-feed record, not even a database call. *)
Theorem unidentified_caller_is_rejected env s req guestDetails :
  get (body req) "guestDetails" = Ok guestDetails ->
  truthy (opt_get (user req) "id") = false ->
  truthy (opt_get guestDetails "email") = false ->
  placeOrder req env s = (Ok auth_required, s).
Proof.
  intros Hguest Huser Hemail.
  rewrite placeOrder_placement. unfold placement, authorized.
  rewrite Hguest, Huser, Hemail. cbn [orb negb].
  destruct (body req); cbn [get] in *; try discriminate; reflexivity.
Qed.

Lemma unidentified_caller_is_rejected_witness :
  placeOrder (anonymous_request (basket [soap] "cod")) (calm 0)
             (fresh razorpay_on)
  = (Ok auth_required, fresh razorpay_on).
Proof.
  apply (unidentified_caller_is_rejected (calm 0) (fresh razorpay_on)
           (anonymous_request (basket [soap] "cod")) JUndefined);
    reflexivity.
Defined.

(** C10: [placeOrder] reads [guestDetails] only in its entry check.  Two
    requests that pass the check and agree on [user] and on [order] end in
    the same outcome and the same store, whatever their [guestDetails]
    hold; and an order created for a request without a [user] is stored
    with an undefined [userId]. *)
Theorem guest_details_are_not_persisted env s req1 req2 :
  authorized req1 = true ->
  authorized req2 = true ->
  user req1 = user req2 ->
  get (body req1) "order" = get (body req2) "order" ->
  placeOrder req1 env s = placeOrder req2 env s
  /\ (user req1 = JUndefined ->
      forall o, places env s req1 o -> userId (order_data o) = JUndefined).
Proof.
  intros Hauth1 Hauth2 Huser Horder. split.
  - rewrite !placeOrder_placement. unfold placement.
    now rewrite Hauth1, Hauth2, Huser, Horder.
  - intros Hguest o Hplaces.
    destruct (places_inv _ _ _ _ Hplaces)
      as (od & _ & _ & _ & _ & _ & _ & Hdata & _).
    destruct (order_data_of_fields _ _ _ _ Hdata) as (_ & Huid & _).
    rewrite Huid, Hguest. reflexivity.
Qed.

Lemma guest_details_are_not_persisted_witness :
  placeOrder (guest_request (basket [soap] "cod") (guest "a@b.c"))
             (calm 0) (fresh razorpay_on)
  = placeOrder (guest_request (basket [soap] "cod") other_guest)
               (calm 0) (fresh razorpay_on)
  /\ (user (guest_request (basket [soap] "cod") (guest "a@b.c")) = JUndefined ->
      forall o,
        places (calm 0) (fresh razorpay_on)
               (guest_request (basket [soap] "cod") (guest "a@b.c")) o ->
        userId (order_data o) = JUndefined).
Proof.
  apply (guest_details_are_not_persisted (calm 0) (fresh razorpay_on)
           (guest_request (basket [soap] "cod") (guest "a@b.c"))
           (guest_request (basket [soap] "cod") other_guest));
    reflexivity.
Defined.

End OrderPlacement.

(* ===================================================================== *)
(** ** Payment-intent creation *)
(* ===================================================================== *)

Section PaymentIntent.



(** [d19_999] is the binary64 value nearest to 19.999: it is a valid datum
    within half a unit in the last place (2^-49) of 19999/1000. *)
Lemma d19_999_is_nearest :
  valid_binary prec emax d19_999 = true
  /\ (Qabs (to_Q d19_999 - (19999 # 1000)) < 1 # 562949953421312)%Q.
Proof. split; vm_compute; reflexivity. Qed.

(** The product [totalAmount * 100] is a binary64 product, rounded to 53
    bits before [Math.round] reads it: for the literal [2.675], whose
    binary64 value lies below 2.675, the product is 267.5 and the amount
    268. *)
Remark product_is_rounded_first :
  (to_Q d2_675 * inject_Z 100 < inject_Z 267 + (1 # 2))%Q
  /\ (to_Q (num_mul d2_675 (num_of_Z 100)) == inject_Z 267 + (1 # 2))%Q
  /\ Math_round (num_mul d2_675 (num_of_Z 100)) = num_of_Z 268.
Proof. repeat split; vm_compute; reflexivity. Qed.



End PaymentIntent.

(* ===================================================================== *)
(** ** Further behaviour of the payment-intent handler *)
(* ===================================================================== *)

Section PaymentIntentCases.

Lemma createRazorpayOrder_intent env s req :
  createRazorpayOrder req env s = payment_intent env s req.
Proof.
  unfold payment_intent, intent_failed, stored_key, options_for,
    gateway_config, amount_required, service_unavailable, key_not_configured,
    authentication_failed.
  unfold createRazorpayOrder. run_ops.
  destruct (get (body req) "totalAmount") as [totalAmount|e]; [|reflexivity].
  destruct (truthy totalAmount); cbn [negb]; [|reflexivity].
  destruct (getRazorpayInstance env s) as [[[razorpay|]|e] s1];
    [|reflexivity|destruct (is_auth_failure e); reflexivity].
  destruct (db_fault env (db_calls s1) (IntegrationFindUnique "Razorpay"))
    as [e|]; [destruct (is_auth_failure e); reflexivity|].
  cbn [integration_table count_db_call].
  match goal with
  | |- context [truthy ?k] => destruct (truthy k)
  end; cbn [negb]; [|reflexivity].
  cbn [ticks api_calls count_db_call tick].
  match goal with
  | |- context [orders_create env ?n ?c ?o] =>
      destruct (orders_create env n c o) as [order|e]
  end; [|destruct (is_auth_failure e); reflexivity].
  destruct (get order "id") as [orderId|e];
    [reflexivity|destruct (is_auth_failure e); reflexivity].
Qed.

Lemma getRazorpayInstance_frame env s :
  same_tables s (snd (getRazorpayInstance env s)).
Proof.
  unfold same_tables.
  destruct (hit_or_miss env s) as [(c & Hc & Ht) | Hmiss].
  - rewrite (getRazorpayInstance_hit env s c Hc Ht). now cbn.
  - rewrite (getRazorpayInstance_miss env s Hmiss). unfold refetch.
    destruct (db_fault _ _ _); [now cbn|].
    destruct (usable_credentials _) as [[k k']|]; now cbn.
Qed.

Lemma getRazorpayInstance_result_cached env s r :
  fst (getRazorpayInstance env s) = Ok r ->
  razorpayInstance (snd (getRazorpayInstance env s)) = r.
Proof.
  destruct (hit_or_miss env s) as [(c & Hc & Ht) | Hmiss].
  - rewrite (getRazorpayInstance_hit env s c Hc Ht). cbn.
    intros H. injection H as <-. exact Hc.
  - rewrite (getRazorpayInstance_miss env s Hmiss). unfold refetch.
    destruct (db_fault _ _ _); [cbn; intros H; now injection H|].
    destruct (usable_credentials _) as [[k k']|]; cbn; intros H;
      now injection H.
Qed.

Lemma getRazorpayInstance_api_calls env s :
  api_calls (snd (getRazorpayInstance env s)) = api_calls s.
Proof.
  destruct (hit_or_miss env s) as [(c & Hc & Ht) | Hmiss].
  - now rewrite (getRazorpayInstance_hit env s c Hc Ht).
  - rewrite (getRazorpayInstance_miss env s Hmiss). unfold refetch.
    destruct (db_fault _ _ _); [reflexivity|].
    destruct (usable_credentials _) as [[k k']|]; reflexivity.
Qed.


End PaymentIntentCases.

(* ===================================================================== *)
(** ** Further behaviour of the gateway-client cache *)
(* ===================================================================== *)

Section GatewayCacheCases.

(** X1: [getRazorpayInstance] never rejects: every call returns a client or
    null, what it returns is exactly what it leaves in the cache, and it
    writes to no table. *)
Theorem accessor_returns_what_it_caches env s :
  exists r,
    fst (getRazorpayInstance env s) = Ok r
    /\ razorpayInstance (snd (getRazorpayInstance env s)) = r
    /\ same_tables s (snd (getRazorpayInstance env s)).
Proof.
  destruct (getRazorpayInstance_total env s) as [r Hr].
  exists r. split; [exact Hr|split].
  - now apply getRazorpayInstance_result_cached.
  - apply getRazorpayInstance_frame.
Qed.

(** X2: when the cache does not answer and the configuration lookup is
    rejected with [e], the accessor returns null instead of throwing: it
    logs [e] with [console.error], clears the cached client and leaves
    [lastFetched] as it was. *)
Theorem lookup_failure_is_swallowed env s e :
  razorpayInstance s = None \/ 60000 <= clock env (ticks s) - lastFetched s ->
  db_fault env (db_calls s) (IntegrationFindUnique "Razorpay") = Some e ->
  fst (getRazorpayInstance env s) = Ok None
  /\ razorpayInstance (snd (getRazorpayInstance env s)) = None
  /\ lastFetched (snd (getRazorpayInstance env s)) = lastFetched s
  /\ journal (snd (getRazorpayInstance env s))
     = EvConsoleError "Failed to fetch Razorpay settings from DB:" e
         :: EvDb (IntegrationFindUnique "Razorpay") :: journal s.
Proof.
  intros Hmiss Hfault.
  rewrite (getRazorpayInstance_miss env s Hmiss). unfold refetch.
  rewrite Hfault. cbn. auto.
Qed.

Lemma lookup_failure_is_swallowed_witness :
  fst (getRazorpayInstance (db_down 0) (fresh razorpay_on)) = Ok None
  /\ razorpayInstance (snd (getRazorpayInstance (db_down 0) (fresh razorpay_on)))
     = None
  /\ lastFetched (snd (getRazorpayInstance (db_down 0) (fresh razorpay_on)))
     = lastFetched (fresh razorpay_on)
  /\ journal (snd (getRazorpayInstance (db_down 0) (fresh razorpay_on)))
     = EvConsoleError "Failed to fetch Razorpay settings from DB:"
                      (PrismaError "connection refused")
         :: EvDb (IntegrationFindUnique "Razorpay")
         :: journal (fresh razorpay_on).
Proof.
  apply (lookup_failure_is_swallowed (db_down 0) (fresh razorpay_on)
           (PrismaError "connection refused")).
  - left. reflexivity.
  - reflexivity.
Defined.

(** X3: when the cache does not answer, the lookup succeeds and the stored
    record is enabled with both credentials truthy, the accessor returns a
    client built from exactly the stored [apiKey] and [apiSecret], whatever
    client was cached before; it caches that client, sets [lastFetched] to
    the clock reading taken after the build, and has asked the database
    once. *)
Theorem client_is_built_from_stored_keys env s record :
  razorpayInstance s = None \/ 60000 <= clock env (ticks s) - lastFetched s ->
  db_fault env (db_calls s) (IntegrationFindUnique "Razorpay") = None ->
  gateway_config s = Some record ->
  enabled record = true ->
  truthy (opt_get (settings record) "apiKey") = true ->
  truthy (opt_get (settings record) "apiSecret") = true ->
  fst (getRazorpayInstance env s)
  = Ok (Some (mkRazorpay (opt_get (settings record) "apiKey")
                         (opt_get (settings record) "apiSecret")))
  /\ razorpayInstance (snd (getRazorpayInstance env s))
     = Some (mkRazorpay (opt_get (settings record) "apiKey")
                        (opt_get (settings record) "apiSecret"))
  /\ lastFetched (snd (getRazorpayInstance env s)) = clock env (S (ticks s))
  /\ lookups (journal (snd (getRazorpayInstance env s)))
     = S (lookups (journal s)).
Proof.
  intros Hmiss Hfault Hcfg Hon Hkey Hsecret.
  rewrite (getRazorpayInstance_miss env s Hmiss). unfold refetch.
  rewrite Hfault, Hcfg. unfold usable_credentials.
  rewrite Hon, Hkey, Hsecret. cbn. auto.
Qed.

Lemma client_is_built_from_stored_keys_witness :
  fst (getRazorpayInstance (calm 90000) rotated)
  = Ok (Some (mkRazorpay (JStr "rzp_live_new") (JStr "n3w")))
  /\ razorpayInstance (snd (getRazorpayInstance (calm 90000) rotated))
     = Some (mkRazorpay (JStr "rzp_live_new") (JStr "n3w"))
  /\ lastFetched (snd (getRazorpayInstance (calm 90000) rotated))
     = clock (calm 90000) (S (ticks rotated))
  /\ lookups (journal (snd (getRazorpayInstance (calm 90000) rotated)))
     = S (lookups (journal rotated)).
Proof.
  apply (client_is_built_from_stored_keys (calm 90000) rotated
           (mkIntegration "Razorpay" true rotated_keys)).
  - right. vm_compute. discriminate.
  - reflexivity.
  - reflexivity.
  - reflexivity.
  - reflexivity.
  - reflexivity.
Defined.

(** X4: two calls in a row.  When a call that was not served from the cache
    returns a client and the next call reads the clock less than 60000 ms
    after the reading taken at the end of the build, the next call returns
    the same client and performs no lookup. *)
Theorem fresh_client_is_reused_within_the_window env s c :
  razorpayInstance s = None \/ 60000 <= clock env (ticks s) - lastFetched s ->
  fst (getRazorpayInstance env s) = Ok (Some c) ->
  clock env (S (S (ticks s))) - clock env (S (ticks s)) < 60000 ->
  fst (getRazorpayInstance env (snd (getRazorpayInstance env s))) = Ok (Some c)
  /\ journal (snd (getRazorpayInstance env (snd (getRazorpayInstance env s))))
     = journal (snd (getRazorpayInstance env s)).
Proof.
  intros Hmiss Hfirst Hclock.
  assert (Hstate : razorpayInstance (snd (getRazorpayInstance env s)) = Some c
                   /\ ticks (snd (getRazorpayInstance env s)) = S (S (ticks s))
                   /\ lastFetched (snd (getRazorpayInstance env s))
                      = clock env (S (ticks s))).
  { revert Hfirst. rewrite (getRazorpayInstance_miss env s Hmiss).
    unfold refetch. destruct (db_fault _ _ _); [discriminate|].
    destruct (usable_credentials _) as [[k k']|]; [|discriminate].
    cbn. intros H. injection H as <-. auto. }
  destruct Hstate as (Hc & Hticks & Hlast).
  rewrite (getRazorpayInstance_hit env _ c Hc).
  - now cbn.
  - now rewrite Hticks, Hlast.
Qed.

Lemma fresh_client_is_reused_within_the_window_witness :
  fst (getRazorpayInstance (ticking 0 1000)
         (snd (getRazorpayInstance (ticking 0 1000) (fresh razorpay_on))))
  = Ok (Some client)
  /\ journal (snd (getRazorpayInstance (ticking 0 1000)
                (snd (getRazorpayInstance (ticking 0 1000) (fresh razorpay_on)))))
     = journal (snd (getRazorpayInstance (ticking 0 1000) (fresh razorpay_on))).
Proof.
  apply (fresh_client_is_reused_within_the_window
           (ticking 0 1000) (fresh razorpay_on) client).
  - left. reflexivity.
  - reflexivity.
  - vm_compute. reflexivity.
Defined.

End GatewayCacheCases.

(* ===================================================================== *)
(** ** Outcomes of the payment-intent handler *)
(* ===================================================================== *)

Section PaymentIntentOutcomes.

(** X5: a [totalAmount] that is missing or falsy (undefined, null, 0, NaN,
    the empty string, false) is answered 400 "Total amount is required"
    before anything else happens: the store, clock included, is left as it
    was. *)
Theorem falsy_amount_is_refused env s req totalAmount :
  get (body req) "totalAmount" = Ok totalAmount ->
  truthy totalAmount = false ->
  createRazorpayOrder req env s = (Ok amount_required, s).
Proof.
  intros Hbody Hfalsy. rewrite createRazorpayOrder_intent.
  unfold payment_intent. now rewrite Hbody, Hfalsy.
Qed.

Lemma falsy_amount_is_refused_witness :
  createRazorpayOrder (payment_request (JNum (S754_zero false))) (calm 0)
                      (fresh razorpay_on)
  = (Ok amount_required, fresh razorpay_on).
Proof.
  apply (falsy_amount_is_refused (calm 0) (fresh razorpay_on)
           (payment_request (JNum (S754_zero false)))
           (JNum (S754_zero false)));
    reflexivity.
Defined.

(** X6: when the accessor returns no client, [createRazorpayOrder] answers
    503 "Payment service is currently unavailable..." and does nothing
    beyond the accessor's own work: no second lookup, no call to the
    processor. *)
Theorem no_client_means_service_unavailable env s req totalAmount :
  get (body req) "totalAmount" = Ok totalAmount ->
  truthy totalAmount = true ->
  fst (getRazorpayInstance env s) = Ok None ->
  createRazorpayOrder req env s
  = (Ok service_unavailable, snd (getRazorpayInstance env s)).
Proof.
  intros Hbody Htruthy Hnone. rewrite createRazorpayOrder_intent.
  unfold payment_intent. rewrite Hbody, Htruthy. cbn [negb].
  destruct (getRazorpayInstance env s) as [r s1]. cbn in Hnone. now subst r.
Qed.

Lemma no_client_means_service_unavailable_witness :
  createRazorpayOrder (payment_request (JNum d19_999)) (calm 0)
                      (fresh razorpay_off)
  = (Ok service_unavailable,
     snd (getRazorpayInstance (calm 0) (fresh razorpay_off))).
Proof.
  apply (no_client_means_service_unavailable (calm 0) (fresh razorpay_off)
           (payment_request (JNum d19_999)) (JNum d19_999));
    reflexivity.
Defined.



Lemma usable_credentials_stored_key s keyId keySecret :
  usable_credentials (gateway_config s) = Some (keyId, keySecret) ->
  truthy (stored_key s) = true.
Proof.
  unfold usable_credentials, stored_key.
  destruct (gateway_config s) as [record|]; [|discriminate].
  destruct (enabled record); [|discriminate].
  destruct (truthy (opt_get (settings record) "apiKey")); [reflexivity|].
  discriminate.
Qed.

(** What a call that returned a client did to the journal and the clock. *)
Lemma getRazorpayInstance_client_cases env s razorpay :
  fst (getRazorpayInstance env s) = Ok (Some razorpay) ->
  (razorpayInstance s = Some razorpay
   /\ clock env (ticks s) - lastFetched s < 60000
   /\ journal (snd (getRazorpayInstance env s)) = journal s)
  \/ ((razorpayInstance s = None
       \/ 60000 <= clock env (ticks s) - lastFetched s)
      /\ truthy (stored_key s) = true
      /\ journal (snd (getRazorpayInstance env s))
         = EvDb (IntegrationFindUnique "Razorpay") :: journal s).
Proof.
  destruct (hit_or_miss env s) as [(c & Hc & Ht) | Hmiss].
  - rewrite (getRazorpayInstance_hit env s c Hc Ht). cbn.
    intros H. injection H as <-. left. auto.
  - rewrite (getRazorpayInstance_miss env s Hmiss). unfold refetch.
    destruct (db_fault _ _ _); [discriminate|].
    destruct (usable_credentials _) as [[k k']|] eqn:Ecred; [|discriminate].
    cbn. intros _. right. split; [exact Hmiss|split; [|reflexivity]].
    now apply (usable_credentials_stored_key s k k').
Qed.

(** X8: a request that reaches a client reads the configuration once more
    than the accessor did: twice in all when the accessor had to build the
    client, once when the client came from the cache. *)
Theorem configuration_is_read_again env s req totalAmount razorpay :
  get (body req) "totalAmount" = Ok totalAmount ->
  truthy totalAmount = true ->
  fst (getRazorpayInstance env s) = Ok (Some razorpay) ->
  lookups (journal (snd (createRazorpayOrder req env s)))
  = S (lookups (journal (snd (getRazorpayInstance env s))))
  /\ (razorpayInstance s = None
      \/ 60000 <= clock env (ticks s) - lastFetched s ->
      lookups (journal (snd (createRazorpayOrder req env s)))
      = S (S (lookups (journal s))))
  /\ (razorpayInstance s <> None
      /\ clock env (ticks s) - lastFetched s < 60000 ->
      lookups (journal (snd (createRazorpayOrder req env s)))
      = S (lookups (journal s))).
Proof.
  intros Hbody Htruthy Hclient.
  assert (Hfirst : lookups (journal (snd (createRazorpayOrder req env s)))
                   = S (lookups (journal (snd (getRazorpayInstance env s))))).
  { rewrite createRazorpayOrder_intent. unfold payment_intent, intent_failed.
    rewrite Hbody, Htruthy. cbn [negb].
    destruct (getRazorpayInstance env s) as [r s1]. cbn [fst snd] in *.
    subst r.
    destruct (db_fault env (db_calls s1) (IntegrationFindUnique "Razorpay"));
      [reflexivity|].
    destruct (truthy (stored_key s1)); cbn [negb]; [|reflexivity].
    destruct (orders_create _ _ _ _) as [order|e]; [|reflexivity].
    destruct (get order "id"); reflexivity. }
  split; [exact Hfirst|].
  rewrite Hfirst.
  destruct (getRazorpayInstance_client_cases env s razorpay Hclient)
    as [(Hc & Ht & Hj) | (Hmiss & _ & Hj)]; rewrite Hj; split.
  - intros [Hnone | Hstale]; [congruence|lia].
  - reflexivity.
  - reflexivity.
  - intros [Hsome Ht]. destruct Hmiss; [contradiction|lia].
Qed.

Lemma configuration_is_read_again_witness :
  lookups (journal (snd (createRazorpayOrder (payment_request (JNum d19_999))
                           (calm 0) (fresh razorpay_on))))
  = S (lookups (journal (snd (getRazorpayInstance (calm 0) (fresh razorpay_on)))))
  /\ (razorpayInstance (fresh razorpay_on) = None
      \/ 60000 <= clock (calm 0) (ticks (fresh razorpay_on))
                  - lastFetched (fresh razorpay_on) ->
      lookups (journal (snd (createRazorpayOrder (payment_request (JNum d19_999))
                               (calm 0) (fresh razorpay_on))))
      = S (S (lookups (journal (fresh razorpay_on)))))
  /\ (razorpayInstance (fresh razorpay_on) <> None
      /\ clock (calm 0) (ticks (fresh razorpay_on))
         - lastFetched (fresh razorpay_on) < 60000 ->
      lookups (journal (snd (createRazorpayOrder (payment_request (JNum d19_999))
                               (calm 0) (fresh razorpay_on))))
      = S (lookups (journal (fresh razorpay_on)))).
Proof.
  apply (configuration_is_read_again (calm 0) (fresh razorpay_on)
           (payment_request (JNum d19_999)) (JNum d19_999) client);
    reflexivity.
Defined.





(** X11: [createRazorpayOrder] writes to no table, calls the processor at
    most once, and answers 200 only when it has called it. *)
Theorem payment_intent_writes_no_table env s req :
  same_tables s (snd (createRazorpayOrder req env s))
  /\ (api_calls (snd (createRazorpayOrder req env s)) = api_calls s
      \/ api_calls (snd (createRazorpayOrder req env s)) = S (api_calls s))
  /\ (forall b, fst (createRazorpayOrder req env s) = Ok (Respond 200 b) ->
      api_calls (snd (createRazorpayOrder req env s)) = S (api_calls s)).
Proof.
  rewrite createRazorpayOrder_intent.
  unfold payment_intent, intent_failed, key_not_configured, amount_required,
    service_unavailable, authentication_failed.
  assert (Hrefl : same_tables s s) by (unfold same_tables; auto).
  destruct (get (body req) "totalAmount") as [totalAmount|e];
    [|cbn; repeat split; auto; discriminate].
  destruct (truthy totalAmount); cbn [negb];
    [|cbn; repeat split; auto; discriminate].
  pose proof (getRazorpayInstance_frame env s) as Hframe.
  pose proof (getRazorpayInstance_api_calls env s) as Hapi.
  destruct (getRazorpayInstance env s) as [[[razorpay|]|e] s1];
    cbn [fst snd] in *.
  - destruct (db_fault env (db_calls s1) (IntegrationFindUnique "Razorpay"))
      as [e|].
    { cbn. repeat split; try apply Hframe; auto.
      intros b. destruct (is_auth_failure e); discriminate. }
    destruct (truthy (stored_key s1)); cbn [negb].
    2:{ cbn. repeat split; try apply Hframe; auto. discriminate. }
    destruct (orders_create _ _ _ _) as [order|e].
    + destruct (get order "id") as [orderId|e]; cbn;
        repeat split; try apply Hframe; auto.
    + cbn. repeat split; try apply Hframe; auto.
  - cbn. repeat split; try apply Hframe; auto. discriminate.
  - cbn. repeat split; try apply Hframe; auto.
    intros b. destruct (is_auth_failure e); discriminate.
Qed.

End PaymentIntentOutcomes.

(* ===================================================================== *)
(** ** Outcomes of order placement *)
(* ===================================================================== *)

Section PlacementOutcomes.

Lemma get_is_type_error v k e : get v k = Throw e -> exists msg, e = TypeError msg.
Proof.
  destruct v; cbn; try discriminate; intros H; injection H as <-; eauto.
Qed.

Lemma get_total_on_values v k :
  nullish v = false -> exists w, get v k = Ok w.
Proof. destruct v; cbn; try discriminate; eauto. Qed.

Lemma get_nullish v k w : get v k = Ok w -> nullish v = false.
Proof. destruct v; cbn; try discriminate; reflexivity. Qed.

Lemma get_throws_on_nullish v k :
  nullish v = true -> exists msg, get v k = Throw (TypeError msg).
Proof. destruct v; cbn; try discriminate; eauto. Qed.

Lemma mappable_item item :
  mappable item = true -> exists record, order_item_of item = Ok record.
Proof.
  unfold mappable, order_item_of. intros H.
  destruct (get item "selectedVariant") as [variant|] eqn:Ev; [|discriminate].
  assert (Hitem : nullish item = false) by now apply (get_nullish _ _ _ Ev).
  assert (Hvar : nullish variant = false) by (destruct variant; easy).
  destruct (get_total_on_values item "id" Hitem) as [id ->].
  destruct (get_total_on_values item "quantity" Hitem) as [qty ->].
  cbn [rbind].
  destruct (get_total_on_values variant "id" Hvar) as [vid ->].
  destruct (get_total_on_values variant "price" Hvar) as [price ->].
  destruct (get_total_on_values variant "attributes" Hvar) as [attrs ->].
  cbn. eauto.
Qed.

Lemma unmappable_item item :
  mappable item = false -> exists msg, order_item_of item = Throw (TypeError msg).
Proof.
  unfold mappable, order_item_of. intros H.
  destruct (nullish item) eqn:Hitem.
  - destruct (get_throws_on_nullish item "id" Hitem) as [msg ->]. cbn. eauto.
  - destruct (get_total_on_values item "id" Hitem) as [id ->].
    destruct (get_total_on_values item "selectedVariant" Hitem) as [variant Ev].
    rewrite Ev in *. cbn [rbind].
    assert (Hvar : nullish variant = true) by (destruct variant; easy).
    destruct (get_throws_on_nullish variant "id" Hvar) as [msg ->]. cbn. eauto.
Qed.

Lemma orderItems_of_mappable orderData itemList :
  get orderData "items" = Ok itemList ->
  items_mappable itemList = true ->
  exists records, orderItems_of orderData = Ok records.
Proof.
  intros Hget. unfold orderItems_of. rewrite Hget. cbn [rbind].
  clear Hget. destruct itemList; cbn; try discriminate.
  induction elems as [|item elems IH]; cbn.
  - eauto.
  - intros H. apply andb_prop in H as [Hitem Hrest].
    destruct (mappable_item item Hitem) as [record ->].
    destruct (IH Hrest) as [records ->]. cbn. eauto.
Qed.

Lemma orderItems_of_unmappable orderData itemList :
  get orderData "items" = Ok itemList ->
  items_mappable itemList = false ->
  exists msg, orderItems_of orderData = Throw (TypeError msg).
Proof.
  intros Hget. unfold orderItems_of. rewrite Hget. cbn [rbind].
  clear Hget. destruct itemList; cbn; eauto.
  induction elems as [|item elems IH]; cbn; [discriminate|].
  intros H. destruct (mappable item) eqn:Hitem.
  - destruct (mappable_item item Hitem) as [record ->].
    destruct (IH H) as [msg ->]. cbn. eauto.
  - destruct (unmappable_item item Hitem) as [msg ->]. cbn. eauto.
Qed.

Lemma order_data_of_total orderData uid orderItems :
  nullish orderData = false ->
  exists data, order_data_of orderData uid orderItems = Ok data.
Proof.
  intros H. unfold order_data_of.
  destruct (get_total_on_values orderData "totalAmount" H) as [? ->].
  destruct (get_total_on_values orderData "shippingAddress" H) as [? ->].
  destruct (get_total_on_values orderData "paymentType" H) as [? ->].
  destruct (get_total_on_values orderData "deliveryType" H) as [? ->].
  destruct (get_total_on_values orderData "deliveryCharge" H) as [? ->].
  destruct (get_total_on_values orderData "appliedCouponCode" H) as [? ->].
  destruct (get_total_on_values orderData "discountAmount" H) as [? ->].
  destruct (get_total_on_values orderData "customerName" H) as [? ->].
  cbn. eauto.
Qed.

Lemma activity_message_of_address env orderData itemList address :
  get orderData "items" = Ok (JArr itemList) ->
  get orderData "shippingAddress" = Ok address ->
  (nullish address = false ->
   exists message, activity_message_of env orderData = Ok message)
  /\ (nullish address = true ->
      exists msg, activity_message_of env orderData = Throw (TypeError msg)).
Proof.
  intros Hitems Haddr. unfold activity_message_of.
  rewrite Hitems, Haddr. cbn [rbind get_first]. split; intros H.
  - destruct (get_total_on_values address "city" H) as [city ->]. cbn. eauto.
  - destruct (get_throws_on_nullish address "city" H) as [msg ->]. cbn. eauto.
Qed.



(** X13: when [items] is not an array, or one of its elements is
    [undefined], [null] or has no [selectedVariant], [placeOrder] hands a
    [TypeError] to [next] and leaves the store untouched: no order is
    created for the line items that could be mapped, and the database is
    not called. *)
Theorem unmappable_item_rejects_the_whole_order env s req orderData itemList :
  authorized req = true ->
  get (body req) "order" = Ok orderData ->
  get orderData "items" = Ok itemList ->
  items_mappable itemList = false ->
  exists msg, placeOrder req env s = (Ok (Next (TypeError msg)), s).
Proof.
  intros Hauth Hbody Hitems Hbad.
  destruct (orderItems_of_unmappable orderData itemList Hitems Hbad)
    as [msg Hthrow].
  exists msg. rewrite placeOrder_placement. unfold placement.
  now rewrite Hbody, Hauth, Hthrow.
Qed.

Lemma unmappable_item_rejects_the_whole_order_witness :
  exists msg,
    placeOrder (member_request (basket [soap; loose_item] "cod")) (calm 0)
               (fresh razorpay_on)
    = (Ok (Next (TypeError msg)), fresh razorpay_on).
Proof.
  apply (unmappable_item_rejects_the_whole_order (calm 0) (fresh razorpay_on)
           (member_request (basket [soap; loose_item] "cod"))
           (basket [soap; loose_item] "cod") (JArr [soap; loose_item]));
    reflexivity.
Defined.

(** X14: a payload whose line items can be mapped but whose
    [shippingAddress] is [undefined] or [null] is stored all the same when
    the database accepts it; only afterwards does building the feed message
    throw, so the handler hands a [TypeError] to [next]: the caller gets an
    error although the order exists, and no feed record is written or even
    attempted. *)
Theorem missing_address_fails_after_the_order_is_stored
  env s req orderData itemList address :
  authorized req = true ->
  get (body req) "order" = Ok orderData ->
  get orderData "items" = Ok (JArr itemList) ->
  forallb mappable itemList = true ->
  get orderData "shippingAddress" = Ok address ->
  nullish address = true ->
  (forall data, db_fault env (db_calls s) (OrderCreate data) = None) ->
  exists o msg,
    fst (placeOrder req env s) = Ok (Next (TypeError msg))
    /\ order_table (snd (placeOrder req env s)) = o :: order_table s
    /\ shippingAddress (order_data o) = address
    /\ activityLog_table (snd (placeOrder req env s)) = activityLog_table s
    /\ db_calls (snd (placeOrder req env s)) = S (db_calls s).
Proof.
  intros Hauth Hbody Hitems Hmap Haddr Hmissing Hdb1.
  destruct (orderItems_of_mappable orderData (JArr itemList) Hitems Hmap)
    as [records Hrecords].
  destruct (order_data_of_total orderData (opt_get (user req) "id") records
              (get_nullish _ _ _ Hitems)) as [data Hdata].
  destruct (activity_message_of_address env orderData itemList address
              Hitems Haddr) as [_ Hmsg].
  destruct (Hmsg Hmissing) as [msg Hthrow].
  exists (mkOrder (db_id env (db_calls s)) data), msg.
  rewrite placeOrder_placement. unfold placement.
  rewrite Hbody, Hauth, Hrecords. cbn [negb rbind].
  rewrite Hdata, Hdb1, Hthrow. cbn.
  destruct (order_data_of_fields _ _ _ _ Hdata)
    as (_ & _ & _ & _ & _ & Hship & _).
  rewrite Haddr in Hship. injection Hship as Hship.
  repeat split; auto.
Qed.

Lemma missing_address_fails_after_the_order_is_stored_witness :
  exists o msg,
    fst (placeOrder (member_request (basket_nowhere [soap])) (calm 0)
                    (fresh razorpay_on))
    = Ok (Next (TypeError msg))
    /\ order_table (snd (placeOrder (member_request (basket_nowhere [soap]))
                                    (calm 0) (fresh razorpay_on)))
       = o :: order_table (fresh razorpay_on)
    /\ shippingAddress (order_data o) = JUndefined
    /\ activityLog_table (snd (placeOrder (member_request (basket_nowhere [soap]))
                                          (calm 0) (fresh razorpay_on)))
       = activityLog_table (fresh razorpay_on)
    /\ db_calls (snd (placeOrder (member_request (basket_nowhere [soap]))
                                 (calm 0) (fresh razorpay_on)))
       = S (db_calls (fresh razorpay_on)).
Proof.
  apply (missing_address_fails_after_the_order_is_stored
           (calm 0) (fresh razorpay_on)
           (member_request (basket_nowhere [soap]))
           (basket_nowhere [soap]) [soap] JUndefined);
    reflexivity.
Defined.

Lemma order_data_of_passthrough orderData uid orderItems data :
  order_data_of orderData uid orderItems = Ok data ->
  get orderData "deliveryType" = Ok (deliveryType data)
  /\ get orderData "deliveryCharge" = Ok (deliveryCharge data)
  /\ get orderData "appliedCouponCode" = Ok (appliedCouponCode data)
  /\ get orderData "discountAmount" = Ok (discountAmount data)
  /\ get orderData "customerName" = Ok (customerName data).
Proof.
  unfold order_data_of.
  destruct (get orderData "totalAmount"); cbn [rbind]; [|discriminate].
  destruct (get orderData "shippingAddress"); cbn [rbind]; [|discriminate].
  destruct (get orderData "paymentType"); cbn [rbind]; [|discriminate].
  destruct (get orderData "deliveryType"); cbn [rbind]; [|discriminate].
  destruct (get orderData "deliveryCharge"); cbn [rbind]; [|discriminate].
  destruct (get orderData "appliedCouponCode"); cbn [rbind]; [|discriminate].
  destruct (get orderData "discountAmount"); cbn [rbind]; [|discriminate].
  destruct (get orderData "customerName"); cbn [rbind]; [|discriminate].
  intros H. injection H as <-. cbn. repeat split; reflexivity.
Qed.

(** X15: [placeOrder] answers 201 exactly when it has written the
    activity-feed record, and a feed record is never written without the
    order it announces: whenever the feed table has grown, the order table
    has grown by the order the response carries. *)
Theorem created_is_answered_exactly_with_both_records env s req :
  ((exists b, fst (placeOrder req env s) = Ok (Respond 201 b))
   <-> (exists m, activityLog_table (snd (placeOrder req env s))
                  = m :: activityLog_table s))
  /\ ((exists m, activityLog_table (snd (placeOrder req env s))
                 = m :: activityLog_table s) ->
      exists o, places env s req o
                /\ fst (placeOrder req env s) = Ok (Respond 201 (BPlaced true o))).
Proof.
  unfold places. rewrite placeOrder_placement.
  unfold placement, auth_required.
  assert (Hstay : forall m, activityLog_table s <> m :: activityLog_table s)
    by (intros m; apply cons_not_self).
  assert (Hno : (exists m, activityLog_table s = m :: activityLog_table s)
                -> False)
    by (intros [m Hm]; now apply (Hstay m)).
  destruct (get (body req) "order") as [orderData|e].
  2:{ cbn. split; [split|]; [intros [b H]; discriminate| |];
      intros H; now apply Hno in H. }
  destruct (authorized req); cbn [negb].
  2:{ cbn. split; [split|]; [intros [b H]; discriminate| |];
      intros H; now apply Hno in H. }
  destruct (rbind (orderItems_of orderData) _) as [data|e].
  2:{ cbn. split; [split|]; [intros [b H]; discriminate| |];
      intros H; now apply Hno in H. }
  destruct (db_fault env (db_calls s) (OrderCreate data)).
  { cbn. split; [split|]; [intros [b H]; discriminate| |];
    intros H; now apply Hno in H. }
  destruct (activity_message_of env orderData) as [message|e].
  2:{ cbn. split; [split|]; [intros [b H]; discriminate| |];
      intros H; now apply Hno in H. }
  destruct (db_fault env (S (db_calls s)) (ActivityLogCreate message)).
  { cbn. split; [split|]; [intros [b H]; discriminate| |];
    intros H; now apply Hno in H. }
  cbn. split; [split|]; eauto.
Qed.

(** X16: [placeOrder] never touches the gateway cache, the integration
    table, the variant table, the clock or the processor; it makes at most
    two database calls and adds at most one order. *)
Theorem placeOrder_leaves_the_rest_alone env s req :
  same_cache s (snd (placeOrder req env s))
  /\ integration_table (snd (placeOrder req env s)) = integration_table s
  /\ productVariant_table (snd (placeOrder req env s)) = productVariant_table s
  /\ ticks (snd (placeOrder req env s)) = ticks s
  /\ api_calls (snd (placeOrder req env s)) = api_calls s
  /\ (db_calls (snd (placeOrder req env s)) <= db_calls s + 2)%nat
  /\ (order_table (snd (placeOrder req env s)) = order_table s
      \/ exists o, order_table (snd (placeOrder req env s)) = o :: order_table s).
Proof.
  rewrite placeOrder_placement. unfold placement, same_cache.
  destruct (get (body req) "order") as [orderData|e];
    [|cbn; repeat split; auto; lia].
  destruct (authorized req); cbn [negb]; [|cbn; repeat split; auto; lia].
  destruct (rbind (orderItems_of orderData) _) as [data|e];
    [|cbn; repeat split; auto; lia].
  destruct (db_fault env (db_calls s) (OrderCreate data));
    [cbn; repeat split; auto; lia|].
  destruct (activity_message_of env orderData) as [message|e];
    [|cbn; repeat split; eauto; lia].
  destruct (db_fault env (S (db_calls s)) (ActivityLogCreate message));
    cbn; repeat split; eauto; lia.
Qed.

(** X17: the stored order is a copy of what the request says: its [userId]
    is the [id] of the request's [user] (whatever [guestDetails] holds),
    and [totalAmount], [deliveryType], [deliveryCharge],
    [appliedCouponCode], [discountAmount], [customerName] and
    [shippingAddress] are the payload's values as sent; nothing is
    recomputed from the line items. *)
Theorem order_copies_the_payload env s req o orderData :
  places env s req o ->
  get (body req) "order" = Ok orderData ->
  userId (order_data o) = opt_get (user req) "id"
  /\ get orderData "totalAmount" = Ok (totalAmount (order_data o))
  /\ get orderData "shippingAddress" = Ok (shippingAddress (order_data o))
  /\ get orderData "deliveryType" = Ok (deliveryType (order_data o))
  /\ get orderData "deliveryCharge" = Ok (deliveryCharge (order_data o))
  /\ get orderData "appliedCouponCode" = Ok (appliedCouponCode (order_data o))
  /\ get orderData "discountAmount" = Ok (discountAmount (order_data o))
  /\ get orderData "customerName" = Ok (customerName (order_data o)).
Proof.
  intros Hplaces Hbody.
  destruct (places_inv _ _ _ _ Hplaces)
    as (od & elems & Hbody' & _ & _ & _ & _ & Hdata & _).
  rewrite Hbody in Hbody'. injection Hbody' as <-.
  destruct (order_data_of_fields _ _ _ _ Hdata)
    as (_ & Huid & _ & _ & Htotal & Hship & _).
  destruct (order_data_of_passthrough _ _ _ _ Hdata)
    as (Hdt & Hdc & Hcoupon & Hdisc & Hname).
  repeat split; assumption.
Qed.

Lemma order_copies_the_payload_witness :
  userId (order_data (order_of (JStr "u1") "card" "Success"
                        [soap_record; comb_record]))
  = opt_get (user (member_request (basket [soap; comb] "card"))) "id"
  /\ get (basket [soap; comb] "card") "totalAmount"
     = Ok (totalAmount (order_data (order_of (JStr "u1") "card" "Success"
                                      [soap_record; comb_record])))
  /\ get (basket [soap; comb] "card") "shippingAddress"
     = Ok (shippingAddress (order_data (order_of (JStr "u1") "card" "Success"
                                          [soap_record; comb_record])))
  /\ get (basket [soap; comb] "card") "deliveryType"
     = Ok (deliveryType (order_data (order_of (JStr "u1") "card" "Success"
                                       [soap_record; comb_record])))
  /\ get (basket [soap; comb] "card") "deliveryCharge"
     = Ok (deliveryCharge (order_data (order_of (JStr "u1") "card" "Success"
                                         [soap_record; comb_record])))
  /\ get (basket [soap; comb] "card") "appliedCouponCode"
     = Ok (appliedCouponCode (order_data (order_of (JStr "u1") "card" "Success"
                                            [soap_record; comb_record])))
  /\ get (basket [soap; comb] "card") "discountAmount"
     = Ok (discountAmount (order_data (order_of (JStr "u1") "card" "Success"
                                         [soap_record; comb_record])))
  /\ get (basket [soap; comb] "card") "customerName"
     = Ok (customerName (order_data (order_of (JStr "u1") "card" "Success"
                                       [soap_record; comb_record]))).
Proof.
  apply (order_copies_the_payload (calm 0) (fresh razorpay_on)
           (member_request (basket [soap; comb] "card"))
           (order_of (JStr "u1") "card" "Success" [soap_record; comb_record])
           (basket [soap; comb] "card")).
  - vm_compute. reflexivity.
  - reflexivity.
Defined.



End PlacementOutcomes.

(* ===================================================================== *)
(** ** Regular expressions: the matcher decides the language *)
(* ===================================================================== *)

Section RegexFacts.

Lemma append_empty_r s : s ++ EmptyString = s.
Proof. induction s as [|c s IH]; cbn; now rewrite ?IH. Qed.

Lemma append_assoc s1 s2 s3 : (s1 ++ s2) ++ s3 = s1 ++ (s2 ++ s3).
Proof. induction s1 as [|c s1 IH]; cbn; now rewrite ?IH. Qed.

Lemma append_is_empty s1 s2 :
  s1 ++ s2 = EmptyString -> s1 = EmptyString /\ s2 = EmptyString.
Proof. destruct s1; cbn; [auto|discriminate]. Qed.

Lemma append_length s1 s2 :
  String.length (s1 ++ s2) = (String.length s1 + String.length s2)%nat.
Proof. induction s1 as [|c s1 IH]; cbn; now rewrite ?IH. Qed.

Lemma seq_inv r1 r2 s :
  Matches (Seq r1 r2) s ->
  exists s1 s2, s = s1 ++ s2 /\ Matches r1 s1 /\ Matches r2 s2.
Proof. intros H. inversion H; subst. eauto. Qed.

Lemma class_inv p s :
  Matches (Class p) s -> exists c, s = String c EmptyString /\ p c = true.
Proof. intros H. inversion H; subst. eauto. Qed.

Lemma alt_inv r1 r2 s : Matches (Alt r1 r2) s -> Matches r1 s \/ Matches r2 s.
Proof. intros H. inversion H; subst; auto. Qed.

Lemma eps_inv s : Matches Eps s -> s = EmptyString.
Proof. intros H. now inversion H. Qed.

Lemma never_inv s : Matches Never s -> False.
Proof. intros H. inversion H. Qed.

Lemma nullable_spec r : nullable r = true <-> Matches r EmptyString.
Proof.
  induction r as [| |p|r1 IH1 r2 IH2|r1 IH1 r2 IH2|r IH]; cbn.
  - split; [discriminate|intros H; now apply never_inv in H].
  - split; [constructor|reflexivity].
  - split; [discriminate|].
    intros H. apply class_inv in H as (c & Hc & _). discriminate.
  - rewrite andb_true_iff, IH1, IH2. split.
    + intros [H1 H2]. apply (MSeq _ _ EmptyString EmptyString H1 H2).
    + intros H. apply seq_inv in H as (s1 & s2 & E & H1 & H2).
      symmetry in E. apply append_is_empty in E as [-> ->]. auto.
  - rewrite orb_true_iff, IH1, IH2. split.
    + intros [H|H]; [now apply MAltL|now apply MAltR].
    + apply alt_inv.
  - split; [constructor|reflexivity].
Qed.

(** A non-empty word of [r*] starts with a non-empty word of [r]. *)
Lemma star_head r c s :
  Matches (Star r) (String c s) ->
  exists s1 s2,
    s = s1 ++ s2 /\ Matches r (String c s1) /\ Matches (Star r) s2.
Proof.
  intros H. remember (Star r) as r' eqn:Er. remember (String c s) as w eqn:Ew.
  revert c s Ew.
  induction H as [|p c0 Hp|r1 r2 s1 s2 H1 IH1 H2 IH2|r1 r2 s0 H0 IH0
                  |r1 r2 s0 H0 IH0|r0|r0 s1 s2 H1 IH1 H2 IH2];
    intros c s Ew; try discriminate.
  injection Er as ->.
  destruct s1 as [|c1 s1]; cbn in Ew.
  - now apply IH2.
  - injection Ew as -> <-. exists s1, s2. auto.
Qed.

Lemma deriv_spec r c s : Matches (deriv c r) s <-> Matches r (String c s).
Proof.
  revert s. induction r as [| |p|r1 IH1 r2 IH2|r1 IH1 r2 IH2|r IH];
    intros s; cbn.
  - split; intros H; now apply never_inv in H.
  - split; intros H; [now apply never_inv in H|].
    apply eps_inv in H. discriminate.
  - destruct (p c) eqn:Hp; split; intros H.
    + apply eps_inv in H as ->. now constructor.
    + apply class_inv in H as (c' & E & _). injection E as _ ->. constructor.
    + now apply never_inv in H.
    + apply class_inv in H as (c' & E & Hc'). injection E as <- _. congruence.
  - assert (Hhead : forall w,
              Matches (Seq (deriv c r1) r2) w ->
              Matches (Seq r1 r2) (String c w)).
    { intros w H. apply seq_inv in H as (s1 & s2 & -> & H1 & H2).
      apply IH1 in H1. apply (MSeq _ _ (String c s1) s2 H1 H2). }
    assert (Hsplit : forall w,
              Matches (Seq r1 r2) (String c w) ->
              Matches (Seq (deriv c r1) r2) w
              \/ (nullable r1 = true /\ Matches (deriv c r2) w)).
    { intros w H. apply seq_inv in H as (s1 & s2 & E & H1 & H2).
      destruct s1 as [|c1 s1]; cbn in E.
      - right. split; [now apply nullable_spec|]. apply IH2. now rewrite E.
      - injection E as <- ->. left. apply IH1 in H1. now constructor. }
    destruct (nullable r1) eqn:Hn; split; intros H.
    + apply alt_inv in H as [H|H]; [now apply Hhead|].
      apply IH2 in H. apply nullable_spec in Hn.
      apply (MSeq _ _ EmptyString (String c s) Hn H).
    + destruct (Hsplit s H) as [H1|[_ H2]]; [now apply MAltL|now apply MAltR].
    + now apply Hhead.
    + destruct (Hsplit s H) as [H1|[Hn' _]]; [exact H1|discriminate].
  - split; intros H.
    + apply alt_inv in H as [H|H]; [apply MAltL|apply MAltR];
        [now apply IH1|now apply IH2].
    + apply alt_inv in H as [H|H]; [apply MAltL|apply MAltR];
        [now apply IH1|now apply IH2].
  - split; intros H.
    + apply seq_inv in H as (s1 & s2 & -> & H1 & H2).
      apply IH in H1. apply (MStarApp _ (String c s1) s2 H1 H2).
    + destruct (star_head r c s H) as (s1 & s2 & -> & H1 & H2).
      apply IH in H1. now constructor.
Qed.

(** The matcher decides membership. *)
Lemma accepts_spec r s : accepts r s = true <-> Matches r s.
Proof.
  revert r. induction s as [|c s IH]; intros r; cbn.
  - apply nullable_spec.
  - rewrite IH. apply deriv_spec.
Qed.

Lemma star_class_spec p s :
  Matches (Star (Class p)) s <-> all_chars p s = true.
Proof.
  split.
  - intros H. remember (Star (Class p)) as r eqn:Er.
    induction H as [|p0 c0 Hp|r1 r2 s1 s2 H1 IH1 H2 IH2|r1 r2 s0 H0 IH0
                    |r1 r2 s0 H0 IH0|r0|r0 s1 s2 H1 IH1 H2 IH2];
      try discriminate; [reflexivity|].
    injection Er as ->. apply class_inv in H1 as (c & -> & Hc). cbn.
    rewrite IH2 by reflexivity. now rewrite Hc.
  - induction s as [|c s IH]; cbn; [constructor|].
    intros H. apply andb_prop in H as [Hc Hs].
    apply (MStarApp _ (String c EmptyString) s); [now constructor|auto].
Qed.

Lemma plus_class_spec p s :
  Matches (Plus (Class p)) s <-> s <> EmptyString /\ all_chars p s = true.
Proof.
  unfold Plus. split.
  - intros H. apply seq_inv in H as (s1 & s2 & -> & H1 & H2).
    apply class_inv in H1 as (c & -> & Hc). apply star_class_spec in H2. cbn.
    split; [discriminate|]. now rewrite Hc, H2.
  - intros [Hne H]. destruct s as [|c s]; [contradiction|].
    cbn in H. apply andb_prop in H as [Hc Hs].
    apply (MSeq _ _ (String c EmptyString) s); [now constructor|].
    now apply star_class_spec.
Qed.

Lemma repeat_class_spec p n s :
  Matches (Repeat n (Class p)) s
  <-> String.length s = n /\ all_chars p s = true.
Proof.
  revert s. induction n as [|n IH]; intros s; cbn.
  - split.
    + intros H. apply eps_inv in H as ->. auto.
    + intros [Hlen _]. destruct s; [constructor|discriminate].
  - split.
    + intros H. apply seq_inv in H as (s1 & s2 & -> & H1 & H2).
      apply class_inv in H1 as (c & -> & Hc).
      apply IH in H2 as [Hlen Hall]. cbn.
      split; [now rewrite Hlen|]. now rewrite Hc, Hall.
    + intros [Hlen Hall]. destruct s as [|c s]; [discriminate|].
      cbn in Hlen, Hall. injection Hlen as Hlen.
      apply andb_prop in Hall as [Hc Hs].
      apply (MSeq _ _ (String c EmptyString) s); [now constructor|].
      now apply IH.
Qed.

Lemma all_chars_any s : all_chars any_char s = true.
Proof. induction s; cbn; auto. Qed.


Lemma some_char_append p s1 s2 :
  some_char p (s1 ++ s2) = some_char p s1 || some_char p s2.
Proof.
  induction s1 as [|c s1 IH]; cbn; [reflexivity|].
  now rewrite IH, orb_assoc.
Qed.

Lemma some_char_split p s :
  some_char p s = true <->
  exists s1 c s2, s = s1 ++ String c s2 /\ p c = true.
Proof.
  split.
  - induction s as [|c s IH]; cbn; [discriminate|].
    destruct (p c) eqn:Hc.
    + intros _. now exists EmptyString, c, s.
    + cbn. intros H. destruct (IH H) as (s1 & c' & s2 & -> & Hc').
      now exists (String c s1), c', s2.
  - intros (s1 & c & s2 & -> & Hc). rewrite some_char_append. cbn.
    rewrite Hc. now rewrite orb_true_r.
Qed.

(** [/[p]/.test(s)] holds exactly when some character of [s] is in [p]. *)
Lemma test_within_class p s : test_within (Class p) s = some_char p s.
Proof.
  apply eq_true_iff_eq. unfold test_within.
  rewrite accepts_spec, some_char_split. split.
  - intros H. apply seq_inv in H as (s1 & s2 & -> & H1 & H2).
    apply seq_inv in H2 as (s3 & s4 & -> & H3 & H4).
    apply class_inv in H3 as (c & -> & Hc). now exists s1, c, s4.
  - intros (s1 & c & s2 & -> & Hc).
    apply MSeq; [apply star_class_spec, all_chars_any|].
    apply (MSeq _ _ (String c EmptyString) s2); [now constructor|].
    apply star_class_spec, all_chars_any.
Qed.

End RegexFacts.

(* ===================================================================== *)
(** ** The validators *)
(* ===================================================================== *)

Section Validators.

Lemma has_char_string w p s : has_char w p (JStr s) = some_char p s.
Proof. unfold has_char. cbn [to_string]. apply test_within_class. Qed.

Lemma strong_password_length s :
  (8 <=? String.length s)%nat = negb (String.length s <? 8)%nat.
Proof.
  destruct (Nat.ltb_spec (String.length s) 8);
    destruct (Nat.leb_spec 8 (String.length s)); try reflexivity; lia.
Qed.

Lemma validatePassword_string w s :
  validatePassword w (JStr s)
  = Ok (mkPasswordCheck (strong_password s) (password_errors s)).
Proof.
  unfold validatePassword, shorter_than. cbn [rbind].
  rewrite !has_char_string. unfold strong_password, password_errors.
  replace (Z.of_nat (String.length s) <? 8)
    with (String.length s <? 8)%nat
    by (destruct (Nat.ltb_spec (String.length s) 8);
        symmetry; [apply Z.ltb_lt|apply Z.ltb_ge]; lia).
  rewrite strong_password_length.
  destruct (String.length s <? 8)%nat, (some_char upper s),
    (some_char lower s), (some_char digit s), (some_char special s).
  all: cbn; reflexivity.
Qed.

(** X19: on a string, [validatePassword] reports valid exactly when the
    string has at least 8 characters and contains an upper-case letter, a
    lower-case letter, a digit and one of the listed special characters;
    its [errors] are the messages of exactly the violated rules, in rule
    order, and are empty exactly when the password is valid.  No character
    is forbidden and there is no upper bound on the length: a valid
    password stays valid when characters are added around it. *)
Theorem validatePassword_on_strings w s :
  validatePassword w (JStr s)
  = Ok (mkPasswordCheck (strong_password s) (password_errors s))
  /\ (strong_password s = true <-> password_errors s = [])
  /\ (strong_password s = true ->
      forall before after, strong_password (before ++ s ++ after) = true).
Proof.
  split; [apply validatePassword_string|split].
  - unfold strong_password, password_errors. rewrite strong_password_length.
    destruct (String.length s <? 8)%nat, (some_char upper s),
      (some_char lower s), (some_char digit s), (some_char special s);
      cbn; split; intros H; try reflexivity; try discriminate.
  - unfold strong_password. intros H before after.
    repeat (apply andb_prop in H as [H ?]).
    rewrite !some_char_append.
    repeat (apply andb_true_intro; split);
      try (apply orb_true_iff; right; apply orb_true_iff; left; assumption).
    apply Nat.leb_le in H. apply Nat.leb_le.
    rewrite !append_length. lia.
Qed.

Lemma emailRegex_shape s : test_whole emailRegex s = true <-> email_shape s.
Proof.
  unfold test_whole, emailRegex, email_shape. rewrite accepts_spec. split.
  - intros H.
    apply seq_inv in H as (a & r1 & -> & Ha & H).
    apply seq_inv in H as (at' & r2 & -> & Hat & H).
    apply seq_inv in H as (b & r3 & -> & Hb & H).
    apply seq_inv in H as (dot & c & -> & Hdot & Hc).
    apply plus_class_spec in Ha as [Ha1 Ha2].
    apply plus_class_spec in Hb as [Hb1 Hb2].
    apply plus_class_spec in Hc as [Hc1 Hc2].
    apply class_inv in Hat as (x & -> & Hx).
    apply class_inv in Hdot as (y & -> & Hy).
    apply Nat.eqb_eq in Hx, Hy. unfold code in Hx, Hy.
    assert (x = "@"%char)
      by (rewrite <- (ascii_nat_embedding x), Hx; reflexivity).
    assert (y = "."%char)
      by (rewrite <- (ascii_nat_embedding y), Hy; reflexivity).
    subst x y. exists a, b, c. repeat split; assumption.
  - intros (a & b & c & -> & Ha & Hb & Hc & Ha' & Hb' & Hc').
    apply MSeq; [now apply plus_class_spec|].
    apply (MSeq _ _ "@" (b ++ "." ++ c)); [now constructor|].
    apply MSeq; [now apply plus_class_spec|].
    apply (MSeq _ _ "." c); [now constructor|].
    now apply plus_class_spec.
Qed.

(** X20: [emailRegex] accepts a string exactly when it reads
    [local@domain.tld] with three non-empty parts free of white space and
    of [@]; an accepted string therefore contains exactly one [@] and no
    white space. *)
Theorem emailRegex_accepts_local_at_domain s :
  (test_whole emailRegex s = true <-> email_shape s)
  /\ (test_whole emailRegex s = true ->
      count_chars is_at s = 1%nat /\ some_char white_space s = false).
Proof.
  pose proof (emailRegex_shape s) as Hiff.
  split; [exact Hiff|].
  intros H. apply Hiff in H
    as (a & b & c & -> & _ & _ & _ & Ha & Hb & Hc).
  assert (Hclean : forall t, all_chars not_space_or_at t = true ->
                             count_chars is_at t = 0%nat
                             /\ some_char white_space t = false).
  { induction t as [|x t IH]; cbn; [auto|].
    intros Hx. apply andb_prop in Hx as [Hx Ht]. destruct (IH Ht) as [-> ->].
    unfold not_space_or_at in Hx. apply negb_true_iff in Hx.
    apply orb_false_iff in Hx as [Hw Hat]. unfold is_at.
    now rewrite Hat, Hw. }
  assert (Hcount : forall t u, count_chars is_at (t ++ u)
                               = (count_chars is_at t + count_chars is_at u)%nat).
  { induction t as [|x t IH]; intros u; cbn; [reflexivity|].
    rewrite IH. lia. }
  destruct (Hclean a Ha) as [Ha1 Ha2], (Hclean b Hb) as [Hb1 Hb2],
    (Hclean c Hc) as [Hc1 Hc2].
  split.
  - rewrite Hcount. cbn. rewrite Hcount. cbn. rewrite Ha1, Hb1, Hc1.
    reflexivity.
  - rewrite ?some_char_append. cbn. rewrite ?some_char_append. cbn.
    rewrite ?some_char_append. cbn. now rewrite Ha2, Hb2, Hc2.
Qed.

Lemma emailRegex_accepts_local_at_domain_witness :
  count_chars is_at "zoe@example.org" = 1%nat
  /\ some_char white_space "zoe@example.org" = false.
Proof.
  apply (emailRegex_accepts_local_at_domain "zoe@example.org").
  reflexivity.
Defined.

(** X21: [isMongoDbId] accepts a string exactly when it consists of 24
    hexadecimal digits (either case); [undefined], [null] and the empty
    string are refused. *)
Theorem isMongoDbId_accepts_24_hex_digits w s :
  (isMongoDbId w (JStr s) = true
   <-> String.length s = 24%nat /\ all_chars hex_digit s = true)
  /\ isMongoDbId w JUndefined = false
  /\ isMongoDbId w JNull = false
  /\ isMongoDbId w (JStr EmptyString) = false.
Proof.
  split; [|repeat split].
  unfold isMongoDbId, test_whole. cbn [truthy to_string].
  destruct s as [|c s]; cbn [String.eqb negb].
  - split; [discriminate|]. intros [H _]. discriminate.
  - rewrite accepts_spec. apply repeat_class_spec.
Qed.

End Validators.

(* ===================================================================== *)
(** ** The audit trail *)
(* ===================================================================== *)

Section AuditTrail.

Lemma get_of_truthy v k : truthy v = true -> get v k = Ok (opt_get v k).
Proof. destruct v; cbn; try discriminate; reflexivity. Qed.

(** [logAdminAction] as trace passing. *)
Lemma logAdminAction_run w l req action details :
  truthy (actor req) = true ->
  logAdminAction req action details w l
  = let who := JObj [("id", opt_get (actor req) "id")] in
    let l1 := mkLog (S (calls l)) (readings l)
                    (Called (UserFindUnique who) :: trace l) in
    match find_user w (calls l) who with
    | Fail f =>
        (Done tt,
         mkLog (S (calls l)) (readings l)
               (Logged "Failed to create admin activity log:" f :: trace l1))
    | Done found =>
        let entry := audit_entry req action details found in
        let l2 := mkLog (S (S (calls l))) (readings l)
                        (Called (AdminActivityLogCreate entry) :: trace l1) in
        match create_admin_log w (S (calls l)) entry with
        | Fail f =>
            (Done tt,
             mkLog (S (S (calls l))) (readings l)
                   (Logged "Failed to create admin activity log:" f :: trace l2))
        | Done _ => (Done tt, l2)
        end
    end.
Proof.
  intros Hactor. unfold logAdminAction, audit_entry. rewrite Hactor.
  cbn [negb]. run_svc. rewrite (get_of_truthy _ "id" Hactor). cbn.
  destruct (find_user w (calls l) _) as [found|f]; [|reflexivity].
  destruct (create_admin_log w (S (calls l)) _); reflexivity.
Qed.

Lemma logAdminAction_completes w l req action details :
  fst (logAdminAction req action details w l) = Done tt.
Proof.
  destruct (truthy (actor req)) eqn:Hactor.
  - rewrite (logAdminAction_run w l req action details Hactor). cbv zeta.
    destruct (find_user w (calls l) _) as [found|f]; [|reflexivity].
    destruct (create_admin_log w (S (calls l)) _); reflexivity.
  - unfold logAdminAction. now rewrite Hactor.
Qed.

(** The trace only grows under [logAdminAction], and no token is signed. *)
Lemma logAdminAction_trace w l req action details :
  exists pre,
    trace (snd (logAdminAction req action details w l)) = (pre ++ trace l)%list
    /\ forall p s o, ~ In (Called (JwtSign p s o)) pre.
Proof.
  destruct (truthy (actor req)) eqn:Hactor.
  - rewrite (logAdminAction_run w l req action details Hactor). cbv zeta.
    destruct (find_user w (calls l) _) as [found|f].
    + destruct (create_admin_log w (S (calls l)) _).
      * eexists [_; _]. split; [reflexivity|].
        intros p s o [H|[H|[]]]; discriminate.
      * eexists [_; _; _]. split; [reflexivity|].
        intros p s o [H|[H|[H|[]]]]; discriminate.
    + eexists [_; _]. split; [reflexivity|].
      intros p s o [H|[H|[]]]; discriminate.
  - unfold logAdminAction. rewrite Hactor. cbn [negb]. run_svc.
    eexists [_]. split; [reflexivity|].
    intros p s o [H|[]]; discriminate.
Qed.

(** X22: [logAdminAction] never rejects, whatever the database does: it
    always completes, after at most two calls.  Without a [user] on the
    request it only writes a warning and calls nothing. *)
Theorem audit_never_fails w l req action details :
  exists l',
    logAdminAction req action details w l = (Done tt, l')
    /\ (calls l' <= calls l + 2)%nat
    /\ (truthy (actor req) = false ->
        l' = mkLog (calls l) (readings l)
               (Warned "Attempted to log an action without an authenticated user."
                  :: trace l)).
Proof.
  destruct (truthy (actor req)) eqn:Hactor.
  - rewrite (logAdminAction_run w l req action details Hactor). cbv zeta.
    destruct (find_user w (calls l) _) as [found|f].
    + destruct (create_admin_log w (S (calls l)) _);
        eexists; (split; [reflexivity|split; [cbn; lia|discriminate]]).
    + eexists. split; [reflexivity|split; [cbn; lia|discriminate]].
  - unfold logAdminAction. rewrite Hactor. cbn [negb]. run_svc.
    eexists. split; [reflexivity|split; [cbn; lia|reflexivity]].
Qed.

(** X23: what [logAdminAction] writes.  With a [user] on the request it
    first looks that user up by id; when the lookup answers, it asks for
    one log entry carrying the user's id, the action, the details, the
    request's ip and, as name, the name of the row found, or "Unknown
    Admin" when no row was found or its name is falsy.  When the lookup
    itself is rejected, no entry is asked for: the error is logged and
    dropped. *)
Theorem audit_entry_names_the_admin w l req action details :
  truthy (actor req) = true ->
  (forall found,
     find_user w (calls l) (JObj [("id", opt_get (actor req) "id")])
     = Done found ->
     In (Called (AdminActivityLogCreate (audit_entry req action details found)))
        (trace (snd (logAdminAction req action details w l)))
     /\ (found = None \/ (exists row, found = Some row
                                      /\ truthy (lookup "name" row) = false) ->
         opt_get (audit_entry req action details found) "adminUserName"
         = JStr "Unknown Admin"))
  /\ (forall f,
        find_user w (calls l) (JObj [("id", opt_get (actor req) "id")])
        = Fail f ->
        trace (snd (logAdminAction req action details w l))
        = Logged "Failed to create admin activity log:" f
            :: Called (UserFindUnique (JObj [("id", opt_get (actor req) "id")]))
            :: trace l).
Proof.
  intros Hactor.
  rewrite (logAdminAction_run w l req action details Hactor). cbv zeta.
  split.
  - intros found Hfound. rewrite Hfound. split.
    + destruct (create_admin_log w (S (calls l)) _); cbn; auto.
    + intros [-> | (row & -> & Hname)]; cbn; [reflexivity|].
      unfold or_else. now rewrite Hname.
  - intros f Hf. now rewrite Hf.
Qed.

Lemma audit_entry_names_the_admin_witness :
  (forall found,
     find_user (outside (Done None) true (Done []) signer_up) (calls blank)
               (JObj [("id", opt_get (actor as_admin) "id")])
     = Done found ->
     In (Called (AdminActivityLogCreate
                   (audit_entry as_admin (JStr "Updated stock") JUndefined found)))
        (trace (snd (logAdminAction as_admin (JStr "Updated stock") JUndefined
                       (outside (Done None) true (Done []) signer_up) blank)))
     /\ (found = None \/ (exists row, found = Some row
                                      /\ truthy (lookup "name" row) = false) ->
         opt_get (audit_entry as_admin (JStr "Updated stock") JUndefined found)
                 "adminUserName"
         = JStr "Unknown Admin"))
  /\ (forall f,
        find_user (outside (Done None) true (Done []) signer_up) (calls blank)
                  (JObj [("id", opt_get (actor as_admin) "id")])
        = Fail f ->
        trace (snd (logAdminAction as_admin (JStr "Updated stock") JUndefined
                      (outside (Done None) true (Done []) signer_up) blank))
        = Logged "Failed to create admin activity log:" f
            :: Called (UserFindUnique
                         (JObj [("id", opt_get (actor as_admin) "id")]))
            :: trace blank).
Proof.
  apply (audit_entry_names_the_admin
           (outside (Done None) true (Done []) signer_up) blank as_admin
           (JStr "Updated stock") JUndefined).
  reflexivity.
Defined.

End AuditTrail.

(* ===================================================================== *)
(** ** Registration and login *)
(* ===================================================================== *)

Section Accounts.

Lemma validatePassword_total w password :
  truthy password = true -> exists check, validatePassword w password = Ok check.
Proof.
  intros H. unfold validatePassword, shorter_than.
  destruct password; cbn in H; try discriminate; cbn [rbind]; eauto.
Qed.

(** [register]: either the input is refused with 400 before anything is
    called, or the database part runs. *)
Lemma register_run w l req name email password :
  get (payload req) "name" = Ok name ->
  get (payload req) "email" = Ok email ->
  get (payload req) "password" = Ok password ->
  (acceptable w name email password = true ->
   register req w l = enrol w l name email password)
  /\ (acceptable w name email password = false ->
      exists content, register req w l = (Done (Answer 400 content), l)).
Proof.
  intros Hname Hemail Hpassword. unfold acceptable, register, enrol.
  run_svc. rewrite Hname, Hemail, Hpassword.
  destruct (truthy name); cbn [negb orb andb];
    [|split; [discriminate|eauto]].
  destruct (truthy email); cbn [negb orb andb];
    [|split; [discriminate|eauto]].
  destruct (truthy password) eqn:Hp; cbn [negb orb andb];
    [|split; [discriminate|eauto]].
  destruct (validatePassword_total w password Hp) as [check ->].
  destruct (isValid check); cbn [negb andb];
    [|split; [discriminate|eauto]].
  destruct (test_whole emailRegex _); cbn [negb];
    [|split; [discriminate|eauto]].
  split; [intros _|discriminate].
  destruct (find_user w (calls l) _) as [[row|]|f]; try reflexivity.
  cbn [calls readings trace].
  destruct (bcrypt_hash w (S (calls l)) password 10) as [h|f];
    [|reflexivity].
  cbn [calls readings trace].
  destruct (create_user w (S (S (calls l))) _); reflexivity.
Qed.



Lemma acceptable_strings w name e s :
  name <> EmptyString -> email_shape e -> strong_password s = true ->
  acceptable w (JStr name) (JStr e) (JStr s) = true.
Proof.
  intros Hname He Hs. unfold acceptable.
  rewrite (validatePassword_string w s). cbn [isValid to_string truthy].
  apply emailRegex_shape in He. rewrite He, Hs.
  assert (Hne : forall t, t <> EmptyString -> negb (String.eqb t EmptyString) = true).
  { intros t Ht. apply negb_true_iff. now apply String.eqb_neq. }
  rewrite (Hne name Hname).
  assert (e <> EmptyString).
  { intros ->. apply emailRegex_shape in He.
    destruct He as (a & b & c & E & Ha & _). destruct a; [contradiction|discriminate]. }
  assert (s <> EmptyString) by (intros ->; discriminate).
  now rewrite (Hne e), (Hne s).
Qed.

(** X25: when the address is already registered, [register] answers 409
    "Email already in use" after the one lookup: nothing is hashed and no
    user is created. *)
Theorem register_refuses_a_known_address w l req name e s row :
  get (payload req) "name" = Ok (JStr name) ->
  get (payload req) "email" = Ok (JStr e) ->
  get (payload req) "password" = Ok (JStr s) ->
  name <> EmptyString -> email_shape e -> strong_password s = true ->
  find_user w (calls l) (JObj [("email", JStr e)]) = Done (Some row) ->
  register req w l
  = (Done (Answer 409 (message_body "Email already in use")),
     mkLog (S (calls l)) (readings l)
           (Called (UserFindUnique (JObj [("email", JStr e)])) :: trace l)).
Proof.
  intros Hname Hemail Hpassword Hn He Hs Hfound.
  destruct (register_run w l req _ _ _ Hname Hemail Hpassword) as [Hrun _].
  rewrite (Hrun (acceptable_strings w name e s Hn He Hs)).
  unfold enrol. now rewrite Hfound.
Qed.

Lemma zoe_address_shape : email_shape "zoe@example.org".
Proof. exists "zoe", "example", "org". repeat split; discriminate. Qed.

Lemma register_refuses_a_known_address_witness :
  register (signup "Zoe" "zoe@example.org" "Tr1cky!pass")
           (outside (Done (Some zoe)) true (Done []) signer_up) blank
  = (Done (Answer 409 (message_body "Email already in use")),
     mkLog (S (calls blank)) (readings blank)
           (Called (UserFindUnique (JObj [("email", JStr "zoe@example.org")]))
              :: trace blank)).
Proof.
  apply (register_refuses_a_known_address
           (outside (Done (Some zoe)) true (Done []) signer_up) blank
           (signup "Zoe" "zoe@example.org" "Tr1cky!pass")
           "Zoe" "zoe@example.org" "Tr1cky!pass" zoe);
    try reflexivity.
  - discriminate.
  - apply zoe_address_shape.
Defined.

(** X26: the password [register] stores is the one bcrypt returned.
    Whenever [register] asks the database to create a user, the data are
    exactly the request's name and email and, as password, the hash that
    [bcrypt.hash(password, 10)] answered, the lookup having found no user
    with that email; and 201 is answered only after such a creation. *)
Theorem register_stores_the_hash w l req name email password pre :
  get (payload req) "name" = Ok name ->
  get (payload req) "email" = Ok email ->
  get (payload req) "password" = Ok password ->
  trace (snd (register req w l)) = (pre ++ trace l)%list ->
  (forall data,
     In (Called (UserCreate data)) pre ->
     exists hashedPassword,
       bcrypt_hash w (S (calls l)) password 10 = Done hashedPassword
       /\ data = JObj [("name", name); ("email", email);
                       ("password", JStr hashedPassword)]
       /\ find_user w (calls l) (JObj [("email", email)]) = Done None)
  /\ (forall content,
        fst (register req w l) = Done (Answer 201 content) ->
        exists data, In (Called (UserCreate data)) pre).
Proof.
  intros Hname Hemail Hpassword Hpre.
  destruct (register_run w l req _ _ _ Hname Hemail Hpassword)
    as [Hrun Hrefuse].
  destruct (acceptable w name email password).
  2:{ destruct (Hrefuse eq_refl) as [content Hr]. rewrite Hr in *.
      cbn [fst snd] in *.
      assert (pre = []) by (apply (app_inv_tail (trace l)); exact (eq_sym Hpre)).
      subst pre. split; [intros data []|intros c H; discriminate]. }
  rewrite (Hrun eq_refl) in *. clear Hrun Hrefuse. unfold enrol in *.
  destruct (find_user w (calls l) _) as [[row|]|f]; cbn [fst snd trace] in *.
  - assert (pre = [Called (UserFindUnique (JObj [("email", email)]))])
      by (apply (app_inv_tail (trace l)); exact (eq_sym Hpre)).
    subst pre. split.
    + intros data [H|[]]. discriminate.
    + intros c H. discriminate.
  - destruct (bcrypt_hash w (S (calls l)) password 10) as [h|f];
      cbn [fst snd trace] in *.
    + assert (Hp : pre = [Called (UserCreate
                                   (JObj [("name", name); ("email", email);
                                          ("password", JStr h)]));
                          Called (BcryptHash password 10);
                          Called (UserFindUnique (JObj [("email", email)]))]).
      { apply (app_inv_tail (trace l)).
        destruct (create_user w (S (S (calls l))) _); exact (eq_sym Hpre). }
      subst pre. split.
      * intros data [H|[H|[H|[]]]]; try discriminate.
        injection H as <-. exists h. auto.
      * intros c _. eexists. left. reflexivity.
    + assert (pre = [Called (BcryptHash password 10);
                     Called (UserFindUnique (JObj [("email", email)]))])
        by (apply (app_inv_tail (trace l)); exact (eq_sym Hpre)).
      subst pre. split.
      * intros data [H|[H|[]]]; discriminate.
      * intros c H. discriminate.
  - assert (pre = [Called (UserFindUnique (JObj [("email", email)]))])
      by (apply (app_inv_tail (trace l)); exact (eq_sym Hpre)).
    subst pre. split.
    + intros data [H|[]]. discriminate.
    + intros c H. discriminate.
Qed.

Lemma register_stores_the_hash_witness :
  (forall data,
     In (Called (UserCreate data))
        [Called (UserCreate (JObj [("name", JStr "Zoe");
                                   ("email", JStr "zoe@example.org");
                                   ("password", JStr "$2a$10$fresh")]));
         Called (BcryptHash (JStr "Tr1cky!pass") 10);
         Called (UserFindUnique (JObj [("email", JStr "zoe@example.org")]))] ->
     exists hashedPassword,
       bcrypt_hash (outside (Done None) true (Done []) signer_up)
                   (S (calls blank)) (JStr "Tr1cky!pass") 10
       = Done hashedPassword
       /\ data = JObj [("name", JStr "Zoe"); ("email", JStr "zoe@example.org");
                       ("password", JStr hashedPassword)]
       /\ find_user (outside (Done None) true (Done []) signer_up) (calls blank)
                    (JObj [("email", JStr "zoe@example.org")])
          = Done None)
  /\ (forall content,
        fst (register (signup "Zoe" "zoe@example.org" "Tr1cky!pass")
                      (outside (Done None) true (Done []) signer_up) blank)
        = Done (Answer 201 content) ->
        exists data,
          In (Called (UserCreate data))
             [Called (UserCreate (JObj [("name", JStr "Zoe");
                                        ("email", JStr "zoe@example.org");
                                        ("password", JStr "$2a$10$fresh")]));
              Called (BcryptHash (JStr "Tr1cky!pass") 10);
              Called (UserFindUnique (JObj [("email", JStr "zoe@example.org")]))]).
Proof.
  apply (register_stores_the_hash
           (outside (Done None) true (Done []) signer_up) blank
           (signup "Zoe" "zoe@example.org" "Tr1cky!pass")
           (JStr "Zoe") (JStr "zoe@example.org") (JStr "Tr1cky!pass"));
    reflexivity.
Defined.

End Accounts.

Section Sessions.

Lemma login_run w l req email password :
  get (payload req) "email" = Ok email ->
  get (payload req) "password" = Ok password ->
  truthy email = true ->
  truthy password = true ->
  login req w l = sign_in w l req email password.
Proof.
  intros Hemail Hpassword Het Hpt. unfold login, sign_in, invalid_credentials,
    identity_of, session.
  run_svc. rewrite Hemail, Hpassword, Het, Hpt. cbn [negb orb].
  destruct (find_user w (calls l) _) as [[user|]|f]; try reflexivity.
  cbn [calls readings trace].
  destruct (bcrypt_compare w (S (calls l)) password _) as [[|]|f];
    try reflexivity.
  cbn [negb calls readings trace].
  destruct (jwt_sign w (S (S (calls l))) _ _ _) as [token|f]; [|reflexivity].
  cbn [calls readings trace].
  destruct (strict_eq_str (lookup "role" user) "ADMIN"); [|reflexivity].
  match goal with
  | |- context [logAdminAction ?r ?a ?d w ?l3] =>
      pose proof (logAdminAction_completes w l3 r a d) as Hdone;
      destruct (logAdminAction r a d w l3) as [r0 l4]
  end.
  cbn [fst snd] in *. subst r0. reflexivity.
Qed.

Lemma omit_removes k row : lookup k (omit k row) = JUndefined.
Proof.
  induction row as [|[k' v] row IH]; cbn; [reflexivity|].
  destruct (String.eqb k' k) eqn:E; cbn; [exact IH|].
  rewrite String.eqb_sym, E. exact IH.
Qed.

Lemma omit_keeps k k' row : k' <> k -> lookup k' (omit k row) = lookup k' row.
Proof.
  intros Hne. induction row as [|[k0 v] row IH]; cbn; [reflexivity|].
  destruct (String.eqb k0 k) eqn:E; cbn.
  - apply String.eqb_eq in E. subst k0.
    apply String.eqb_neq in Hne. now rewrite Hne.
  - destruct (String.eqb k' k0); [reflexivity|exact IH].
Qed.

(** X27: failed logins look alike.  An unknown email address and a wrong
    password for a known one get the same answer, 401 "Invalid
    credentials", and in neither case is a token signed. *)
Theorem failed_logins_look_alike w l req email password :
  get (payload req) "email" = Ok email ->
  get (payload req) "password" = Ok password ->
  truthy email = true ->
  truthy password = true ->
  find_user w (calls l) (JObj [("email", email)]) = Done None
  \/ (exists user,
        find_user w (calls l) (JObj [("email", email)]) = Done (Some user)
        /\ bcrypt_compare w (S (calls l)) password (lookup "password" user)
           = Done false) ->
  fst (login req w l) = Done invalid_credentials
  /\ exists pre,
       trace (snd (login req w l)) = (pre ++ trace l)%list
       /\ forall p s o, ~ In (Called (JwtSign p s o)) pre.
Proof.
  intros Hemail Hpassword Het Hpt Hfail.
  rewrite (login_run w l req email password Hemail Hpassword Het Hpt).
  unfold sign_in.
  destruct Hfail as [Hnone | (user & Hsome & Hwrong)].
  - rewrite Hnone. split; [reflexivity|].
    eexists [_]. split; [reflexivity|].
    intros p s o [H|[]]; discriminate.
  - rewrite Hsome, Hwrong. split; [reflexivity|].
    eexists [_; _]. split; [reflexivity|].
    intros p s o [H|[H|[]]]; discriminate.
Qed.

Lemma failed_logins_look_alike_witness :
  fst (login (signin "zoe@example.org" "Wr0ng!pass")
             (outside (Done (Some zoe)) false (Done []) signer_up) blank)
  = Done invalid_credentials
  /\ exists pre,
       trace (snd (login (signin "zoe@example.org" "Wr0ng!pass")
                         (outside (Done (Some zoe)) false (Done []) signer_up)
                         blank))
       = (pre ++ trace blank)%list
       /\ forall p s o, ~ In (Called (JwtSign p s o)) pre.
Proof.
  apply (failed_logins_look_alike
           (outside (Done (Some zoe)) false (Done []) signer_up) blank
           (signin "zoe@example.org" "Wr0ng!pass")
           (JStr "zoe@example.org") (JStr "Wr0ng!pass"));
    try reflexivity.
  right. exists zoe. split; reflexivity.
Defined.

(** X28: a successful login.  When the user is found, bcrypt confirms the
    password and the token library signs [{ id, role }] of the row, the
    answer is 200 with that token and the row without its [password]
    column (every other column is kept).  The audit entry is asked for
    only when the row's role is "ADMIN", after the token was signed, and
    whatever becomes of it (lookup or write rejected) the answer is the
    same. *)
Theorem login_success w l req email password user token :
  get (payload req) "email" = Ok email ->
  get (payload req) "password" = Ok password ->
  truthy email = true ->
  truthy password = true ->
  find_user w (calls l) (JObj [("email", email)]) = Done (Some user) ->
  bcrypt_compare w (S (calls l)) password (lookup "password" user) = Done true ->
  jwt_sign w (S (S (calls l))) (identity_of user) (jwt_secret w)
           (JObj [("expiresIn", jwt_expiresIn w)]) = Done token ->
  fst (login req w l) = Done (Answer 200 (session token user))
  /\ lookup "password" (omit "password" user) = JUndefined
  /\ (forall k, k <> "password" ->
      lookup k (omit "password" user) = lookup k user)
  /\ (strict_eq_str (lookup "role" user) "ADMIN" = false ->
      trace (snd (login req w l))
      = Called (JwtSign (identity_of user) (jwt_secret w)
                        (JObj [("expiresIn", jwt_expiresIn w)]))
          :: Called (BcryptCompare password (lookup "password" user))
          :: Called (UserFindUnique (JObj [("email", email)]))
          :: trace l)
  /\ (strict_eq_str (lookup "role" user) "ADMIN" = true ->
      exists pre,
        trace (snd (login req w l))
        = (pre ++ Called (UserFindUnique (JObj [("id", lookup "id" user)]))
               :: Called (JwtSign (identity_of user) (jwt_secret w)
                                  (JObj [("expiresIn", jwt_expiresIn w)]))
               :: Called (BcryptCompare password (lookup "password" user))
               :: Called (UserFindUnique (JObj [("email", email)]))
               :: trace l)%list).
Proof.
  intros Hemail Hpassword Het Hpt Hfound Hmatch Hsign.
  rewrite (login_run w l req email password Hemail Hpassword Het Hpt).
  unfold sign_in. rewrite Hfound, Hmatch, Hsign. cbn [fst snd].
  split; [reflexivity|].
  split; [apply omit_removes|].
  split; [intros k Hk; now apply omit_keeps|].
  split.
  - intros Hrole. now rewrite Hrole.
  - intros Hrole. rewrite Hrole.
    rewrite logAdminAction_run by reflexivity. cbv zeta.
    cbn [actor opt_get identity_of lookup String.eqb Ascii.eqb Bool.eqb
         calls readings trace].
    destruct (find_user w (S (S (S (calls l)))) _) as [found|f].
    + destruct (create_admin_log w _ _).
      * eexists [_]. reflexivity.
      * eexists [_; _]. reflexivity.
    + eexists [_]. reflexivity.
Qed.

Lemma login_success_witness :
  fst (login (signin "root@example.org" "Tr1cky!pass")
             (outside (Done (Some root)) true
                      (Fail (Raised (PrismaError "audit log unavailable")))
                      signer_up) blank)
  = Done (Answer 200 (session "jwt.t0ken" root))
  /\ lookup "password" (omit "password" root) = JUndefined
  /\ (forall k, k <> "password" ->
      lookup k (omit "password" root) = lookup k root)
  /\ (strict_eq_str (lookup "role" root) "ADMIN" = false ->
      trace (snd (login (signin "root@example.org" "Tr1cky!pass")
                        (outside (Done (Some root)) true
                           (Fail (Raised (PrismaError "audit log unavailable")))
                           signer_up) blank))
      = Called (JwtSign (identity_of root) (JStr "s3cr3t")
                        (JObj [("expiresIn", JStr "7d")]))
          :: Called (BcryptCompare (JStr "Tr1cky!pass") (lookup "password" root))
          :: Called (UserFindUnique (JObj [("email", JStr "root@example.org")]))
          :: trace blank)
  /\ (strict_eq_str (lookup "role" root) "ADMIN" = true ->
      exists pre,
        trace (snd (login (signin "root@example.org" "Tr1cky!pass")
                          (outside (Done (Some root)) true
                             (Fail (Raised (PrismaError "audit log unavailable")))
                             signer_up) blank))
        = (pre ++ Called (UserFindUnique (JObj [("id", lookup "id" root)]))
               :: Called (JwtSign (identity_of root) (JStr "s3cr3t")
                                  (JObj [("expiresIn", JStr "7d")]))
               :: Called (BcryptCompare (JStr "Tr1cky!pass")
                                        (lookup "password" root))
               :: Called (UserFindUnique
                            (JObj [("email", JStr "root@example.org")]))
               :: trace blank)%list).
Proof.
  apply (login_success
           (outside (Done (Some root)) true
                    (Fail (Raised (PrismaError "audit log unavailable")))
                    signer_up) blank
           (signin "root@example.org" "Tr1cky!pass")
           (JStr "root@example.org") (JStr "Tr1cky!pass") root "jwt.t0ken");
    reflexivity.
Defined.

End Sessions.

(* ===================================================================== *)
(** ** Upload URLs *)
(* ===================================================================== *)

Section Uploads.












End Uploads.
